(** * lyncx-server: the bearer-token middleware and the user / plan handlers

    A shallow embedding of [server.js].  JSON documents are finite maps from
    field names to JSON values, the Firestore collection [users] is a finite
    map from document ids to documents, and every route handler is a
    computation in a state monad over the collection and the wall clock. *)

From stdpp Require Import gmap strings list.
From Stdlib Require Import ZArith Lia Ascii.

#[local] Set Warnings "-register-all".
#[local] Open Scope Z_scope.

(** ** JSON values and the JavaScript operators the handlers apply to them *)

(** A JSON value as [express.json()] hands it to a handler and as Firestore
    stores it.  Numbers are the integral ones. *)
Inductive value :=
| VNull
| VBool (b : bool)
| VNum (n : Z)
| VStr (s : string)
| VArr (items : list value)
| VObj (fields : gmap string value).

(** A JavaScript object / a Firestore document: field name to value.  A field
    that is absent reads as [undefined], which is [None] here. *)
Abbreviation doc := (gmap string value).

(** [ToBoolean] on a JSON value. *)
Definition truthy (v : value) : bool :=
  match v with
  | VNull => false
  | VBool b => b
  | VNum n => negb (n =? 0)
  | VStr s => negb (String.eqb s "")
  | VArr _ => true
  | VObj _ => true
  end.

(** [ToBoolean] on a value that may be [undefined]. *)
Definition truthy_opt (o : option value) : bool :=
  match o with
  | Some v => truthy v
  | None => false
  end.

(** [x || null]. *)
Definition or_null (o : option value) : value :=
  match o with
  | Some v => if truthy v then v else VNull
  | None => VNull
  end.

(** [x === "literal"]. *)
Definition strict_eq_str (v : value) (lit : string) : bool :=
  match v with
  | VStr s => String.eqb s lit
  | _ => false
  end.

(** [array.includes(x)] for an array of string literals (SameValueZero). *)
Definition includes (arr : list string) (x : option value) : bool :=
  match x with
  | Some (VStr s) => existsb (String.eqb s) arr
  | _ => false
  end.

(** Whether converting a JSON value to a string or to a primitive throws a
    TypeError, as in a template literal and in [new Date(v)].  An object
    parsed from JSON converts through the inherited [toString] unless it has
    an own field of that name: that field is never callable, and [valueOf]
    (its own or the inherited one, which returns the object) gives no
    primitive either, so the conversion throws.  An array converts by joining
    the conversions of its elements other than [null]. *)
Fixpoint to_string_throws (v : value) : bool :=
  match v with
  | VObj fields =>
      match fields !! "toString" with
      | Some _ => true
      | None => false
      end
  | VArr items => existsb to_string_throws items
  | _ => false
  end.

(** The same for a value that may be [undefined], which converts. *)
Definition to_string_throws_opt (o : option value) : bool :=
  match o with
  | Some v => to_string_throws v
  | None => false
  end.

(** [String.prototype.split(" ")]. *)
Fixpoint split_space (s : string) : list string :=
  match s with
  | EmptyString => [EmptyString]
  | String c rest =>
      if Ascii.eqb c " "%char then EmptyString :: split_space rest
      else match split_space rest with
           | [] => [String c EmptyString]
           | piece :: pieces => String c piece :: pieces
           end
  end.

(** A JavaScript number that may be [NaN]. *)
Inductive jsnum :=
| NaN
| Num (n : Z).

(** [Math.ceil(a / b)] for integral [a] and positive [b].  The quotient of
    the source is a double; for a span [a] of fewer than 2^53 milliseconds it
    rounds to no other integer than the exact quotient does. *)
Definition ceil_div (a b : Z) : Z := - ((- a) / b).

(** ** Calendar dates: one implementation of [toISOString] and its inverse

    The handlers are parameterised by [Date.prototype.toISOString] and by the
    [Date] constructor.  The functions below are the instance used wherever a
    concrete run is evaluated. *)

Definition digit_char (d : Z) : ascii := ascii_of_nat (48 + Z.to_nat d).

Fixpoint pad_dec (width : nat) (n : Z) (acc : string) : string :=
  match width with
  | O => acc
  | S w => pad_dec w (n / 10) (String (digit_char (n mod 10)) acc)
  end.

(** Days since 1970-01-01 to (year, month, day) in the proleptic Gregorian
    calendar. *)
Definition civil_from_days (z : Z) : Z * Z * Z :=
  let z := z + 719468 in
  let era := z / 146097 in
  let doe := z - era * 146097 in
  let yoe := (doe - doe / 1460 + doe / 36524 - doe / 146096) / 365 in
  let doy := doe - (365 * yoe + yoe / 4 - yoe / 100) in
  let mp := (5 * doy + 2) / 153 in
  let d := doy - (153 * mp + 2) / 5 + 1 in
  let m := if mp <? 10 then mp + 3 else mp - 9 in
  (yoe + era * 400 + (if m <=? 2 then 1 else 0), m, d).

Definition days_from_civil (y m d : Z) : Z :=
  let y := if m <=? 2 then y - 1 else y in
  let era := y / 400 in
  let yoe := y - era * 400 in
  let doy := (153 * (if 2 <? m then m - 3 else m + 9) + 2) / 5 + d - 1 in
  let doe := yoe * 365 + yoe / 4 - yoe / 100 + doy in
  era * 146097 + doe - 719468.

Definition MS_PER_DAY : Z := 1000 * 60 * 60 * 24.

(** [new Date(t).toISOString()]: [YYYY-MM-DDTHH:mm:ss.sssZ], and the expanded
    year with a sign and six digits outside 0000..9999. *)
Definition iso8601 (t : Z) : string :=
  let '(y, m, d) := civil_from_days (t / MS_PER_DAY) in
  let ms := t mod MS_PER_DAY in
  let year :=
    if (0 <=? y) && (y <=? 9999) then pad_dec 4 y EmptyString
    else String (if y <? 0 then "-"%char else "+"%char) (pad_dec 6 (Z.abs y) EmptyString) in
  String.concat EmptyString
    [ year; "-"; pad_dec 2 m EmptyString; "-"; pad_dec 2 d EmptyString;
      "T"; pad_dec 2 (ms / 3600000) EmptyString;
      ":"; pad_dec 2 (ms / 60000 mod 60) EmptyString;
      ":"; pad_dec 2 (ms / 1000 mod 60) EmptyString;
      "."; pad_dec 3 (ms mod 1000) EmptyString; "Z" ].

Definition digit_val (c : ascii) : option Z :=
  let n := Z.of_nat (nat_of_ascii c) in
  if (48 <=? n) && (n <=? 57) then Some (n - 48) else None.

Fixpoint parse_dec (s : string) (acc : Z) : option Z :=
  match s with
  | EmptyString => Some acc
  | String c rest =>
      match digit_val c with
      | Some d => parse_dec rest (10 * acc + d)
      | None => None
      end
  end.

Definition field_at (s : string) (pos len : nat) : option Z :=
  parse_dec (String.substring pos len s) 0.

(** The time value of [new Date(s)] for a string in the format [iso8601]
    writes (years 0000..9999); [None] is an invalid date. *)
Definition parse_iso8601 (s : string) : option Z :=
  match field_at s 0 4, field_at s 5 2, field_at s 8 2,
        field_at s 11 2, field_at s 14 2, field_at s 17 2, field_at s 20 3 with
  | Some y, Some m, Some d, Some hh, Some mm, Some ss, Some ms =>
      let t := days_from_civil y m d * MS_PER_DAY
               + hh * 3600000 + mm * 60000 + ss * 1000 + ms in
      if String.eqb (iso8601 t) s then Some t else None
  | _, _, _, _, _, _, _ => None
  end.

(** The largest time value of a [Date], in milliseconds either side of the
    epoch. *)
Definition MAX_TIME : Z := 8640000000000000.

(** An instance of the [Date] constructor for the runs below, not the
    constructor itself.  It reads the strings [iso8601] writes and the
    primitives that are no strings as [new Date(v)] does ([null] and [false]
    as 0, [true] as 1, a number as itself when it is a time value).  Every
    other value it reads as an invalid date: an object that converts, and
    also strings in other formats and arrays, some of which JavaScript
    accepts.  The runs below use it on strings of the [iso8601] format and
    on one string that JavaScript reads as no date either. *)
Definition date_value (v : value) : option Z :=
  match v with
  | VStr s => parse_iso8601 s
  | VNum n => if (- MAX_TIME <=? n) && (n <=? MAX_TIME) then Some n else None
  | VNull => Some 0
  | VBool b => Some (if b then 1 else 0)
  | VArr _ => None
  | VObj _ => None
  end.

(** ** The world a request runs in *)

(** [req.user]: the identity the token middleware attaches to a request. *)
Record Identity := { uid : string; email : string }.

(** What a handler sends: [res.status(status).json(json)]. *)
Record response := { status : Z; json : value }.

(** The collection [users], and the wall clock: reading number [ticks] of the
    clock returns [clock ticks]. *)
Record World := {
  store : gmap string doc;
  clock : nat -> Z;
  ticks : nat
}.

(** Handlers are state passing computations over the world. *)
Definition M (A : Type) : Type := World -> A * World.

Definition ret {A : Type} (a : A) : M A := fun w => (a, w).

Definition bind {A B : Type} (m : M A) (k : A -> M B) : M B :=
  fun w => let '(a, w') := m w in k a w'.

Notation "'do' x <- m ; k" := (bind m (fun x => k))
  (at level 10, x name, m at level 100, k at level 200).

(** [Date.now()] and the time value of [new Date()]. *)
Definition Date_now : M Z :=
  fun w => (clock w (ticks w),
            {| store := store w; clock := clock w; ticks := S (ticks w) |}).

(** How a write to the collection can fail. *)
Inductive store_error :=
| NotFound.

(** Modelled from the spec: the Firestore client behind
    [db.collection("users").doc(id)] is not part of the repository.  [get]
    reads the document at [id], if there is one. *)
Definition db_get (id : string) : M (option doc) :=
  fun w => (store w !! id, w).

(** Modelled from the spec: [set] of the absent Firestore client writes the
    document at [id], whether or not one is there. *)
Definition db_set (id : string) (d : doc) : M unit :=
  fun w => (tt, {| store := <[id := d]> (store w); clock := clock w; ticks := ticks w |}).

(** Modelled from the spec: [update] of the absent Firestore client fails with
    [NotFound] when there is no document at [id], and otherwise overwrites the
    top-level fields it is given and keeps every other field. *)
Definition db_update (id : string) (fields : doc) : M (store_error + unit) :=
  fun w =>
    match store w !! id with
    | None => (inl NotFound, w)
    | Some d =>
        (inr tt, {| store := <[id := fields ∪ d]> (store w);
                    clock := clock w; ticks := ticks w |})
    end.

Definition error_json (msg : string) : value := VObj {[ "error" := VStr msg ]}.

Definition message_json (msg : string) : value := VObj {[ "message" := VStr msg ]}.

(** A field of an object literal whose value may be [undefined]:
    [JSON.stringify] leaves such a field out. *)
Definition set_opt (k : string) (o : option value) (m : doc) : doc :=
  match o with
  | Some v => <[k := v]> m
  | None => m
  end.

(** What [x.field] can read from: [None] when [x] is [null] (the read
    throws), the fields of an object, and no field of anything else. *)
Definition fields_of (v : value) : option doc :=
  match v with
  | VNull => None
  | VObj f => Some f
  | _ => Some ∅
  end.

Definition json_of_num (o : option jsnum) : value :=
  match o with
  | Some (Num n) => VNum n
  | Some NaN => VNull
  | None => VNull
  end.

Definition SEVEN_DAYS : Z := 7 * 24 * 60 * 60 * 1000.

Definition validPlans : list string := ["free"; "trial"; "pro"; "plus"].

(** The token the middleware reads from the header:
    [authHeader && authHeader.split(" ")[1]]. *)
Definition bearer_token (authHeader : option string) : option string :=
  match authHeader with
  | None => None
  | Some h => if String.eqb h "" then Some h else split_space h !! 1%nat
  end.

(** The outcome of the middleware: a response, or [next()] with [req.user] set. *)
Inductive auth_result :=
| Rejected (res : response)
| Next (user : Identity).

(** ** TokenCodec *)

Module TokenCodec.

(** Modelled from the spec: the [jsonwebtoken] package that [jwt.sign] and
    [jwt.verify] call is not part of the repository.  A token is the signed
    bundle of section 3: the identity, when it was issued and when it
    expires, and a signature over these under the service secret. *)
Record Token := {
  subject : Identity;
  issuedAt : Z;
  expiresAt : Z;
  signature : string
}.

Section Codec.

(** The keyed signature function. *)
Variable mac : string -> Identity -> Z -> Z -> string.

(** Modelled from the spec: [issue] of the absent [jsonwebtoken] package
    embeds the identity, [issuedAt = now] and [expiresAt = now + ttl], and
    signs them. *)
Definition issue (secret : string) (who : Identity) (now ttl : Z) : Token :=
  {| subject := who; issuedAt := now; expiresAt := now + ttl;
     signature := mac secret who now (now + ttl) |}.

(** Modelled from the spec: [verify] of the absent [jsonwebtoken] package
    fails ([None], the failure [InvalidToken]) when the signature does not
    verify under the secret or when [expiresAt <= now]. *)
Definition verify (secret : string) (tok : Token) (now : Z) : option Identity :=
  if String.eqb (signature tok)
       (mac secret (subject tok) (issuedAt tok) (expiresAt tok))
     && (now <? expiresAt tok)
  then Some (subject tok)
  else None.

End Codec.

End TokenCodec.

(** [jwt.verify] when the package is the codec above: [decode] parses the
    compact form a request carries, and a string that does not parse is a
    malformed token. *)
Definition codec_verify (mac : string -> Identity -> Z -> Z -> string)
    (decode : string -> option TokenCodec.Token)
    (token secret : string) (now : Z) : option Identity :=
  match decode token with
  | None => None
  | Some tok => TokenCodec.verify mac secret tok now
  end.

(** ** The handlers of [server.js] *)

Section Server.

(** [Date.prototype.toISOString]. *)
Variable toISOString : Z -> string.

(** The time value of [new Date(v)]; [None] is [NaN], an invalid date. *)
Variable Date_of : value -> option Z.

(** [process.env.JWT_SECRET]. *)
Variable JWT_SECRET : string.

(** [jwt.verify token secret] run at a given time: the decoded identity, or
    [None] when it reports an error. *)
Variable jwt_verify : string -> string -> Z -> option Identity.

(** [jwt.sign payload secret {expiresIn}] run at a given time. *)
Variable jwt_sign : Identity -> string -> Z -> Z -> string.

(** [authenticateToken], lines 45-65. *)
Definition authenticateToken (headers : gmap string string) : M auth_result :=
  let authHeader := headers !! "authorization" in
  let token := bearer_token authHeader in
  match token with
  | None => ret (Rejected {| status := 401; json := error_json "Access token required" |})
  | Some t =>
      if String.eqb t ""
      then ret (Rejected {| status := 401; json := error_json "Access token required" |})
      else
        do now <- Date_now;
        match jwt_verify t JWT_SECRET now with
        | None =>
            ret (Rejected {| status := 403; json := error_json "Invalid or expired token" |})
        | Some decoded =>
            ret (Next {| uid := uid decoded; email := email decoded |})
        end
  end.

(** A route registered as [app.METHOD(path, authenticateToken, handler)]. *)
Definition protected (handler : Identity -> doc -> M response)
    (headers : gmap string string) (body : doc) : M response :=
  do outcome <- authenticateToken headers;
  match outcome with
  | Rejected res => ret res
  | Next user => handler user body
  end.

(** [POST /api/user/create], lines 141-174: what runs once
    [await ...get()] has returned [existingUser]. *)
Definition create_commit (user : Identity) (planType : value)
    (existingUser : option doc) : M response :=
  match existingUser with
  | Some _ => ret {| status := 409; json := error_json "User already exists" |}
  | None =>
      do now <- Date_now;
      do subscriptionEnd <-
        (if strict_eq_str planType "trial"
         then do t <- Date_now; ret (Some (t + SEVEN_DAYS))
         else ret None);
      let newUserData : doc :=
        {[ "uid" := VStr (uid user);
           "email" := VStr (email user);
           "displayName" := VNull;
           "photoURL" := VNull;
           "plan" := VObj
             {[ "type" := planType;
                "status" := VStr "active";
                "subscriptionStart" := VStr (toISOString now);
                "subscriptionEnd" :=
                  match subscriptionEnd with
                  | Some e => VStr (toISOString e)
                  | None => VNull
                  end;
                "lastUpdated" := VStr (toISOString now) ]};
           "createdAt" := VStr (toISOString now);
           "lastLogin" := VStr (toISOString now) ]} in
      do _ <- db_set (uid user) newUserData;
      ret {| status := 201;
             json := VObj {[ "message" := VStr "User created successfully";
                             "user" := VObj newUserData ]} |}
  end.

(** [const { planType = "trial" } = req.body], line 126. *)
Definition create_planType (body : doc) : value :=
  default (VStr "trial") (body !! "planType").

(** [POST /api/user/create], lines 124-179.  The log line of line 128
    converts [planType] to a string; when that throws, the [catch] of line
    175 answers before anything is read. *)
Definition post_user_create (user : Identity) (body : doc) : M response :=
  let planType := create_planType body in
  if to_string_throws planType
  then ret {| status := 500; json := error_json "Failed to create user" |}
  else
    do existingUser <- db_get (uid user);
    create_commit user planType existingUser.

(** [PUT /api/user/plan], lines 182-220.  The log line of line 186
    converts [planType] to a string before it is validated; when that
    throws, the [catch] of line 216 answers. *)
Definition put_user_plan (user : Identity) (body : doc) : M response :=
  let planType := body !! "planType" in
  let subscriptionEnd := body !! "subscriptionEnd" in
  let stripeCustomerId := body !! "stripeCustomerId" in
  if to_string_throws_opt planType
  then ret {| status := 500; json := error_json "Failed to update plan" |}
  else if negb (includes validPlans planType)
  then ret {| status := 400; json := error_json "Invalid plan type" |}
  else
    do now <- Date_now;
    let updatedPlan : doc :=
      set_opt "type" planType
        {[ "status" := VStr "active";
           "subscriptionStart" := VStr (toISOString now);
           "subscriptionEnd" := or_null subscriptionEnd;
           "stripeCustomerId" := or_null stripeCustomerId;
           "lastUpdated" := VStr (toISOString now) ]} in
    do written <- db_update (uid user)
                    {[ "plan" := VObj updatedPlan;
                       "lastLogin" := VStr (toISOString now) ]};
    match written with
    | inl _ => ret {| status := 500; json := error_json "Failed to update plan" |}
    | inr _ =>
        ret {| status := 200;
               json := VObj {[ "message" := VStr "Plan updated successfully";
                               "plan" := VObj updatedPlan ]} |}
    end.

(** The [updates] object of [PUT /api/user/profile], lines 229-234: lastLogin,
    and displayName and photoURL when the request has them. *)
Definition profile_updates (body : doc) (now : Z) : doc :=
  let displayName := body !! "displayName" in
  let photoURL := body !! "photoURL" in
  set_opt "photoURL" photoURL
    (set_opt "displayName" displayName
       {[ "lastLogin" := VStr (toISOString now) ]}).

(** [PUT /api/user/profile], lines 223-245. *)
Definition put_user_profile (user : Identity) (body : doc) : M response :=
  do now <- Date_now;
  let updates := profile_updates body now in
  do written <- db_update (uid user) updates;
  match written with
  | inl _ => ret {| status := 500; json := error_json "Failed to update profile" |}
  | inr _ => ret {| status := 200; json := message_json "Profile updated successfully" |}
  end.

(** The [daysRemaining] computation of [GET /api/user/stats], lines 259-268,
    with [now] the value [Date.now()] returned. *)
Definition daysRemaining (plan : doc) (now : Z) : option jsnum :=
  match plan !! "subscriptionEnd" with
  | Some v =>
      if truthy v
      then Some match Date_of v with
                | Some e => Num (Z.max 0 (ceil_div (e - now) MS_PER_DAY))
                | None => NaN
                end
      else None
  | None => None
  end.

(** The [isExpired] computation of [GET /api/user/stats], lines 274-276, with
    [now] the time value of [new Date()]. *)
Definition isExpired (plan : doc) (now : Z) : bool :=
  match plan !! "subscriptionEnd" with
  | Some v =>
      if truthy v
      then match Date_of v with
           | Some e => now >? e
           | None => false
           end
      else false
  | None => false
  end.

(** [GET /api/user/stats], lines 248-283.  [new Date(plan.subscriptionEnd)]
    at line 263 converts a truthy end that is no primitive; when that
    throws, the [catch] of line 279 answers before the clock is read. *)
Definition get_user_stats (user : Identity) (body : doc) : M response :=
  do userDoc <- db_get (uid user);
  match userDoc with
  | None => ret {| status := 404; json := error_json "User not found" |}
  | Some userData =>
      match from_option fields_of None (userData !! "plan") with
      | None => ret {| status := 500; json := error_json "Failed to get user stats" |}
      | Some plan =>
          if truthy_opt (plan !! "subscriptionEnd")
             && to_string_throws_opt (plan !! "subscriptionEnd")
          then ret {| status := 500; json := error_json "Failed to get user stats" |}
          else
          do days <-
            (if truthy_opt (plan !! "subscriptionEnd")
             then do now <- Date_now; ret (daysRemaining plan now)
             else ret None);
          do expired <-
            (if truthy_opt (plan !! "subscriptionEnd")
             then do now <- Date_now; ret (isExpired plan now)
             else ret false);
          ret {| status := 200;
                 json := VObj
                   (set_opt "planType" (plan !! "type")
                   (set_opt "planStatus" (plan !! "status")
                   (set_opt "memberSince" (userData !! "createdAt")
                      {[ "daysRemaining" := json_of_num days;
                         "isExpired" := VBool expired ]}))) |}
      end
  end.

(** [POST /api/auth/generate-token], lines 304-326, on the [uid] and [email]
    of the request body. *)
Definition post_auth_generate_token (uid_field email_field : option string) : M response :=
  match uid_field, email_field with
  | Some u, Some e =>
      if String.eqb u "" || String.eqb e ""
      then ret {| status := 400; json := error_json "Missing required user data" |}
      else
        do now <- Date_now;
        let token := jwt_sign {| uid := u; email := e |} JWT_SECRET SEVEN_DAYS now in
        ret {| status := 200; json := VObj {[ "token" := VStr token ]} |}
  | _, _ => ret {| status := 400; json := error_json "Missing required user data" |}
  end.

(** *** Concurrent [create] requests

    A handler runs from one [await] to the next without interruption, and
    the event loop may run another request's handler in between.  A create
    request is therefore a task of two steps: the read of line 133 (or the
    answer of the [catch] when the log line of line 128 throws), and
    everything from line 137 to the write of line 167. *)
Inductive create_task :=
| Arrived (user : Identity) (body : doc)
| GotUser (user : Identity) (planType : value) (existingUser : option doc)
| Responded (res : response).

Definition create_step (t : create_task) : M create_task :=
  match t with
  | Arrived user body =>
      if to_string_throws (create_planType body)
      then ret (Responded {| status := 500; json := error_json "Failed to create user" |})
      else
        do existingUser <- db_get (uid user);
        ret (GotUser user (create_planType body) existingUser)
  | GotUser user planType existingUser =>
      do res <- create_commit user planType existingUser;
      ret (Responded res)
  | Responded res => ret (Responded res)
  end.

(** The event loop: the schedule names, turn by turn, the task that runs its
    next step. *)
Fixpoint run_schedule (schedule : list nat) (tasks : list create_task)
    : M (list create_task) :=
  match schedule with
  | [] => ret tasks
  | i :: rest =>
      match tasks !! i with
      | Some t =>
          do t' <- create_step t;
          run_schedule rest (<[i := t']> tasks)
      | None => run_schedule rest tasks
      end
  end.

Definition task_status (t : create_task) : option Z :=
  match t with
  | Responded res => Some (status res)
  | _ => None
  end.

End Server.

(** ** The remaining routes and the router of [server.js] *)

(** A request, by the route its method and path select, with what the
    handler of that route reads from it.  [Malformed_body] is a request, on
    any route, whose body [express.json()] does not accept; in every other
    request the body has parsed to an object.  [Unrouted] is any other
    method and path, the OPTIONS requests that the cors middleware answers
    apart. *)
Inductive request :=
| GET_health (headers : gmap string string)
| GET_auth_verify (headers : gmap string string)
| POST_auth_logout (headers : gmap string string)
| GET_user_profile (headers : gmap string string)
| POST_user_create (headers : gmap string string) (body : doc)
| PUT_user_plan (headers : gmap string string) (body : doc)
| PUT_user_profile (headers : gmap string string) (body : doc)
| GET_user_stats (headers : gmap string string)
| POST_auth_generate_token (uid_field email_field : option string)
| Malformed_body
| Unrouted.

(** The Authorization-bearing headers of a request, when its route reads
    them. *)
Definition request_headers (req : request) : option (gmap string string) :=
  match req with
  | GET_health h | GET_auth_verify h | POST_auth_logout h | GET_user_profile h
  | POST_user_create h _ | PUT_user_plan h _ | PUT_user_profile h _
  | GET_user_stats h => Some h
  | POST_auth_generate_token _ _ | Malformed_body | Unrouted => None
  end.

(** What a layer of the Express router does with a request: it passes the
    request on, passes an error on ([next(err)]), or answers. *)
Inductive layer_step :=
| Pass
| Pass_error
| Respond (run : M response).

(** A layer is a middleware or route, or an error-handling middleware (one of
    four parameters). *)
Inductive layer :=
| Middleware (step : request -> layer_step)
| Error_middleware (run : M response).

(** The router goes through the layers in registration order.  Until an
    error is passed on it skips the error-handling ones, and from then on it
    skips all others. *)
Fixpoint dispatch (layers : list layer) (failed : bool) (req : request)
    : option (M response) :=
  match layers with
  | [] => None
  | Middleware step :: rest =>
      if failed then dispatch rest true req
      else match step req with
           | Pass => dispatch rest false req
           | Pass_error => dispatch rest true req
           | Respond run => Some run
           end
  | Error_middleware run :: rest =>
      if failed then Some run else dispatch rest false req
  end.

(** The document shape the writes of [server.js] keep: a plan whose status is
    active and whose subscriptionEnd is [null] or truthy. *)
Definition plan_ok (plan : doc) : bool :=
  match plan !! "status" with
  | Some (VStr s) => String.eqb s "active"
  | _ => false
  end
  && match plan !! "subscriptionEnd" with
     | Some VNull => true
     | Some v => truthy v
     | None => false
     end.

(** A document stored under the id [k]: its uid field is [k] and its plan is
    an object of the shape above. *)
Definition doc_ok (k : string) (d : doc) : bool :=
  match d !! "uid" with
  | Some (VStr u) => String.eqb u k
  | _ => false
  end
  && match d !! "plan" with
     | Some (VObj plan) => plan_ok plan
     | _ => false
     end.

Definition store_ok (s : gmap string doc) : Prop :=
  forall (k : string) (d : doc), s !! k = Some d -> doc_ok k d = true.

Section Routes.

Variable toISOString : Z -> string.
Variable Date_of : value -> option Z.
Variable JWT_SECRET : string.
Variable jwt_verify : string -> string -> Z -> option Identity.
Variable jwt_sign : Identity -> string -> Z -> Z -> string.

(** [GET /api/health], lines 70-77. *)
Definition get_health (user : Identity) (body : doc) : M response :=
  do now <- Date_now;
  ret {| status := 200;
         json := VObj {[ "status" := VStr "healthy";
                         "user" := VStr (email user);
                         "timestamp" := VStr (toISOString now);
                         "server" := VStr "lyncx-api" ]} |}.

(** [GET /api/auth/verify], lines 80-85. *)
Definition get_auth_verify (user : Identity) (body : doc) : M response :=
  ret {| status := 200;
         json := VObj {[ "valid" := VBool true;
                         "user" := VObj {[ "uid" := VStr (uid user);
                                           "email" := VStr (email user) ]} ]} |}.

(** [POST /api/auth/logout], lines 88-93. *)
Definition post_auth_logout (user : Identity) (body : doc) : M response :=
  ret {| status := 200; json := message_json "Logged out successfully" |}.

(** [GET /api/user/profile], lines 96-121. *)
Definition get_user_profile (user : Identity) (body : doc) : M response :=
  do userDoc <- db_get (uid user);
  match userDoc with
  | None => ret {| status := 404; json := error_json "User not found" |}
  | Some userData =>
      ret {| status := 200;
             json := VObj
               (set_opt "displayName" (userData !! "displayName")
               (set_opt "photoURL" (userData !! "photoURL")
               (set_opt "plan" (userData !! "plan")
               (set_opt "createdAt" (userData !! "createdAt")
               (set_opt "lastLogin" (userData !! "lastLogin")
                  {[ "uid" := VStr (uid user);
                     "email" := VStr (email user) ]}))))) |}
  end.

(** [express.json()], line 23: it passes an error on for a body it does not
    accept. *)
Definition json_parser : layer := Middleware (fun req =>
  match req with
  | Malformed_body => Pass_error
  | _ => Pass
  end).

(** A route behind [authenticateToken]; a request without a body has the
    empty object for one. *)
Definition route_health : layer := Middleware (fun req =>
  match req with
  | GET_health h => Respond (protected JWT_SECRET jwt_verify get_health h ∅)
  | _ => Pass
  end).

Definition route_auth_verify : layer := Middleware (fun req =>
  match req with
  | GET_auth_verify h => Respond (protected JWT_SECRET jwt_verify get_auth_verify h ∅)
  | _ => Pass
  end).

Definition route_auth_logout : layer := Middleware (fun req =>
  match req with
  | POST_auth_logout h => Respond (protected JWT_SECRET jwt_verify post_auth_logout h ∅)
  | _ => Pass
  end).

Definition route_user_profile_get : layer := Middleware (fun req =>
  match req with
  | GET_user_profile h => Respond (protected JWT_SECRET jwt_verify get_user_profile h ∅)
  | _ => Pass
  end).

Definition route_user_create : layer := Middleware (fun req =>
  match req with
  | POST_user_create h b =>
      Respond (protected JWT_SECRET jwt_verify (post_user_create toISOString) h b)
  | _ => Pass
  end).

Definition route_user_plan : layer := Middleware (fun req =>
  match req with
  | PUT_user_plan h b =>
      Respond (protected JWT_SECRET jwt_verify (put_user_plan toISOString) h b)
  | _ => Pass
  end).

Definition route_user_profile_put : layer := Middleware (fun req =>
  match req with
  | PUT_user_profile h b =>
      Respond (protected JWT_SECRET jwt_verify (put_user_profile toISOString) h b)
  | _ => Pass
  end).

Definition route_user_stats : layer := Middleware (fun req =>
  match req with
  | GET_user_stats h => Respond (protected JWT_SECRET jwt_verify (get_user_stats Date_of) h ∅)
  | _ => Pass
  end).

(** The error-handling middleware of lines 286-289: Express runs it for an
    error a layer before it passed on. *)
Definition error_middleware : layer :=
  Error_middleware (ret {| status := 500; json := error_json "Internal server error" |}).

(** The catch-all of lines 292-294, [app.use("*", ...)]: it matches every
    request that reaches it. *)
Definition not_found_handler : layer := Middleware (fun _ =>
  Respond (ret {| status := 404; json := error_json "Endpoint not found" |})).

(** [app.post("/api/auth/generate-token", ...)], line 304. *)
Definition route_generate_token : layer := Middleware (fun req =>
  match req with
  | POST_auth_generate_token u e =>
      Respond (post_auth_generate_token JWT_SECRET jwt_sign u e)
  | _ => Pass
  end).

(** The layers of the application in the order [server.js] registers them
    (lines 23, 70, 80, 88, 96, 124, 182, 223, 248, 286, 292 and 304).  The
    cors middleware of lines 13-22 passes every request of type [request] on
    and is left out. *)
Definition app_layers : list layer :=
  [ json_parser;
    route_health; route_auth_verify; route_auth_logout; route_user_profile_get;
    route_user_create; route_user_plan; route_user_profile_put; route_user_stats;
    error_middleware; not_found_handler; route_generate_token ].

(** The server on one request.  A request no layer answers gets the 404 of
    Express itself. *)
Definition serve (req : request) : M response :=
  match dispatch app_layers false req with
  | Some run => run
  | None => ret {| status := 404; json := VNull |}
  end.

(** The server on requests that arrive one after the other. *)
Fixpoint serve_all (reqs : list request) : M (list response) :=
  match reqs with
  | [] => ret []
  | req :: rest =>
      do res <- serve req;
      do more <- serve_all rest;
      ret (res :: more)
  end.

End Routes.

(** The interleavings of two create tasks in which neither task has run both
    of its steps before the other starts. *)
Definition overlapping_schedules : list (list nat) :=
  [ [0; 1; 0; 1]; [0; 1; 1; 0]; [1; 0; 0; 1]; [1; 0; 1; 0] ]%nat.

(** The statuses a request of each route can be answered with. *)
Definition route_statuses (req : request) : list Z :=
  match req with
  | GET_health _ | GET_auth_verify _ | POST_auth_logout _ => [200; 401; 403]
  | GET_user_profile _ => [200; 401; 403; 404]
  | POST_user_create _ _ => [201; 401; 403; 409; 500]
  | PUT_user_plan _ _ => [200; 400; 401; 403; 500]
  | PUT_user_profile _ _ => [200; 401; 403; 500]
  | GET_user_stats _ => [200; 401; 403; 404; 500]
  | POST_auth_generate_token _ _ | Unrouted => [404]
  | Malformed_body => [500]
  end.

(** ** Header shapes *)

(** A string with no space in it: one piece for [split(" ")]. *)
Fixpoint no_space (s : string) : bool :=
  match s with
  | EmptyString => true
  | String c rest => negb (Ascii.eqb c " "%char) && no_space rest
  end.

(** The text after the first space of a string, if it has one. *)
Fixpoint after_space (s : string) : option string :=
  match s with
  | EmptyString => None
  | String c rest => if Ascii.eqb c " "%char then Some rest else after_space rest
  end.

(** The text before the first space of a string. *)
Fixpoint until_space (s : string) : string :=
  match s with
  | EmptyString => EmptyString
  | String c rest =>
      if Ascii.eqb c " "%char then EmptyString else String c (until_space rest)
  end.

(** The second space-separated field of a header: what stands between its
    first space and its second. *)
Definition second_field (authHeader : string) : option string :=
  until_space <$> after_space authHeader.

(** The header section 4.2 of the specification names: [Bearer <token>]. *)
Definition has_bearer_scheme (authHeader : string) : bool :=
  String.prefix "Bearer " authHeader.

(** ** Sample requests and worlds, for the concrete runs below *)

Definition alice : Identity := {| uid := "u1"; email := "a@x.com" |}.

(** 2024-01-01T00:00:00.000Z. *)
Definition T0 : Z := 1704067200000.

(** An empty collection under a clock that stands still at [T0]. *)
Definition still_world : World :=
  {| store := ∅; clock := fun _ => T0; ticks := 0 |}.

(** An empty collection under a clock that advances one millisecond per
    reading. *)
Definition ticking_world : World :=
  {| store := ∅; clock := fun n => T0 + Z.of_nat n; ticks := 0 |}.

(** A collection that holds a document for [alice] and nobody else. *)
Definition alice_doc : doc :=
  {[ "uid" := VStr "u1";
     "email" := VStr "a@x.com";
     "displayName" := VStr "Alice";
     "photoURL" := VNull;
     "plan" := VObj {[ "type" := VStr "pro";
                       "status" := VStr "active";
                       "subscriptionStart" := VStr "2023-12-01T00:00:00.000Z";
                       "subscriptionEnd" := VStr "2024-01-01T00:30:00.000Z";
                       "stripeCustomerId" := VStr "cus_old";
                       "lastUpdated" := VStr "2023-12-01T00:00:00.000Z" ]};
     "createdAt" := VStr "2023-11-01T00:00:00.000Z";
     "lastLogin" := VStr "2023-12-01T00:00:00.000Z" ]}.

Definition alice_world : World :=
  {| store := {[ "u1" := alice_doc ]}; clock := fun _ => T0; ticks := 0 |}.

(** A verifier that accepts the one token [tok-alice], until a week after
    [T0]. *)
Definition sample_verify (token secret : string) (now : Z) : option Identity :=
  if String.eqb token "tok-alice" && String.eqb secret "s3cret" && (now <? T0 + SEVEN_DAYS)
  then Some alice
  else None.

(** A keyed signature for the sample runs of the codec. *)
Definition sample_mac (secret : string) (who : Identity) (iat exp : Z) : string :=
  String.concat "." [secret; uid who; email who; iso8601 iat; iso8601 exp].

(** A signer that hands out the one token [tok-alice]. *)
Definition sample_sign (who : Identity) (secret : string) (ttl now : Z) : string :=
  "tok-alice".

Definition alice_headers : gmap string string :=
  {[ "authorization" := "Bearer tok-alice" ]}.

(** A second user, whose document says nothing but its uid and plan. *)
Definition bob_doc : doc :=
  {[ "uid" := VStr "u2";
     "plan" := VObj {[ "type" := VStr "free";
                       "status" := VStr "active";
                       "subscriptionEnd" := VNull ]};
     "createdAt" := VStr "2023-10-01T00:00:00.000Z" ]}.

(** A collection that holds the documents of both users. *)
Definition two_user_world : World :=
  {| store := {[ "u1" := alice_doc; "u2" := bob_doc ]};
     clock := fun _ => T0; ticks := 0 |}.

(** * Properties *)

(** ** The JavaScript operators *)

Lemma ceil_div_bounds (a b : Z) :
  0 < b -> (ceil_div a b - 1) * b < a <= ceil_div a b * b.
Proof.
  intros Hb. unfold ceil_div.
  pose proof (Z.div_mod (- a) b ltac:(lia)) as Hdm.
  pose proof (Z.mod_pos_bound (- a) b Hb) as Hm.
  nia.
Qed.

Lemma ceil_div_unique (a b c : Z) :
  0 < b -> (c - 1) * b < a <= c * b -> ceil_div a b = c.
Proof.
  intros Hb Hc. pose proof (ceil_div_bounds a b Hb) as Hd. nia.
Qed.

Lemma or_null_absent : or_null None = VNull.
Proof. reflexivity. Qed.

Lemma or_null_truthy (v : value) : truthy v = true -> or_null (Some v) = v.
Proof. intros Hv. unfold or_null. by rewrite Hv. Qed.

Lemma or_null_falsy (v : value) : truthy v = false -> or_null (Some v) = VNull.
Proof. intros Hv. unfold or_null. by rewrite Hv. Qed.

(** What [x || null] stores is [null] or truthy. *)
Lemma or_null_cases (o : option value) :
  or_null o = VNull \/ truthy (or_null o) = true.
Proof.
  destruct o as [v|]; [|by left]. unfold or_null.
  destruct (truthy v) eqn:Hv; [by right | by left].
Qed.

(** An ISO string is never empty, so a stored timestamp is truthy. *)
Lemma iso8601_truthy (t : Z) : truthy (VStr (iso8601 t)) = true.
Proof.
  unfold truthy, iso8601.
  destruct (civil_from_days (t / MS_PER_DAY)) as [[y m] d]. cbn [String.concat].
  by destruct (if (0 <=? y) && (y <=? 9999) then _ else _).
Qed.

Lemma includes_validPlans (x : option value) :
  includes validPlans x = true <->
  exists s, x = Some (VStr s) /\ s ∈ validPlans.
Proof.
  unfold includes, validPlans. split.
  - destruct x as [[| | |s| |]|]; try discriminate. cbn.
    rewrite !orb_true_iff, !String.eqb_eq. intros H. exists s. split; [done|].
    rewrite !elem_of_cons. intuition discriminate.
  - intros (s & -> & Hs). cbn. revert Hs.
    rewrite !orb_true_iff, !String.eqb_eq, !elem_of_cons, elem_of_nil. tauto.
Qed.

Lemma includes_validPlans_false (x : option value) :
  (forall s, s ∈ validPlans -> x <> Some (VStr s)) ->
  includes validPlans x = false.
Proof.
  intros Hx. destruct (includes validPlans x) eqn:Hi; [|done].
  apply includes_validPlans in Hi as (s & -> & Hs). by destruct (Hx s Hs).
Qed.

(** ** The handlers *)

Section Properties.

Variable toISOString : Z -> string.
Variable Date_of : value -> option Z.
Variable JWT_SECRET : string.
Variable jwt_verify : string -> string -> Z -> option Identity.
Variable jwt_sign : Identity -> string -> Z -> Z -> string.

(** *** The collection *)

Lemma db_update_missing (id : string) (fields : doc) (w : World) :
  store w !! id = None -> db_update id fields w = (inl NotFound, w).
Proof. intros Hid. unfold db_update. by rewrite Hid. Qed.

Lemma db_update_present (id : string) (fields old : doc) (w : World) :
  store w !! id = Some old ->
  db_update id fields w =
    (inr tt, {| store := <[id := fields ∪ old]> (store w);
                clock := clock w; ticks := ticks w |}).
Proof. intros Hid. unfold db_update. by rewrite Hid. Qed.

(** A merge keeps every field it is not given. *)
Lemma merge_keeps (fields old : doc) (k : string) :
  fields !! k = None -> (fields ∪ old) !! k = old !! k.
Proof. intros Hk. by apply lookup_union_r. Qed.

(** A merge overwrites every field it is given. *)
Lemma merge_overwrites (fields old : doc) (k : string) (v : value) :
  fields !! k = Some v -> (fields ∪ old) !! k = Some v.
Proof. intros Hk. by apply lookup_union_Some_l. Qed.

(** *** [PUT /api/user/plan] *)

(** A plan change whose requested type cannot be converted to a string is
    answered by the [catch], before the type is validated, and the world it
    ran in is the world it leaves. *)
Lemma put_user_plan_throws (user : Identity) (body : doc) (w : World) :
  to_string_throws_opt (body !! "planType") = true ->
  put_user_plan toISOString user body w =
    ({| status := 500; json := error_json "Failed to update plan" |}, w).
Proof. intros Hthrows. unfold put_user_plan. by rewrite Hthrows. Qed.

(** A plan change whose requested type converts to a string and is none of
    free, trial, pro and plus is answered 400 "Invalid plan type", and the
    world it ran in is the world it leaves: no document, and so no stored
    plan, is touched. *)
Lemma put_user_plan_invalid_type (user : Identity) (body : doc) (w : World) :
  to_string_throws_opt (body !! "planType") = false ->
  (forall s, s ∈ validPlans -> body !! "planType" <> Some (VStr s)) ->
  put_user_plan toISOString user body w =
    ({| status := 400; json := error_json "Invalid plan type" |}, w).
Proof.
  intros Hprints Hbad. unfold put_user_plan. rewrite Hprints.
  by rewrite (includes_validPlans_false _ Hbad).
Qed.

(** A plan change is never answered 400 or 500 with a write: whenever the
    requested type is none of free, trial, pro and plus, the world it ran in
    is the world it leaves. *)
Lemma put_user_plan_invalid_type_keeps_world (user : Identity) (body : doc) (w : World) :
  (forall s, s ∈ validPlans -> body !! "planType" <> Some (VStr s)) ->
  snd (put_user_plan toISOString user body w) = w.
Proof.
  intros Hbad.
  destruct (to_string_throws_opt (body !! "planType")) eqn:Hthrows.
  - by rewrite put_user_plan_throws.
  - by rewrite put_user_plan_invalid_type.
Qed.

(** The conversion of a string never throws. *)
Lemma to_string_throws_opt_str (o : option value) (s : string) :
  o = Some (VStr s) -> to_string_throws_opt o = false.
Proof. by intros ->. Qed.

(** C7: a plan change with a valid type, for a user that has a document,
    stores a plan built from the request and the clock alone: status active,
    subscriptionStart and lastUpdated the current time, subscriptionEnd and
    stripeCustomerId the request's (null when the request gives none).  The
    plan stored before does not occur in it. *)
Theorem change_plan_replaces_plan (user : Identity) (body old : doc) (s : string) (w : World) :
  store w !! uid user = Some old ->
  body !! "planType" = Some (VStr s) ->
  s ∈ validPlans ->
  let now := clock w (ticks w) in
  let plan : doc :=
    {[ "type" := VStr s;
       "status" := VStr "active";
       "subscriptionStart" := VStr (toISOString now);
       "subscriptionEnd" := or_null (body !! "subscriptionEnd");
       "stripeCustomerId" := or_null (body !! "stripeCustomerId");
       "lastUpdated" := VStr (toISOString now) ]} in
  exists (w' : World) (stored : doc),
    put_user_plan toISOString user body w =
      ({| status := 200;
          json := VObj {[ "message" := VStr "Plan updated successfully";
                          "plan" := VObj plan ]} |}, w') /\
    store w' !! uid user = Some stored /\
    stored !! "plan" = Some (VObj plan) /\
    (body !! "subscriptionEnd" = None -> plan !! "subscriptionEnd" = Some VNull) /\
    (body !! "stripeCustomerId" = None -> plan !! "stripeCustomerId" = Some VNull).
Proof.
  intros Hold Htype Hvalid now plan.
  assert (includes validPlans (body !! "planType") = true) as Hinc.
  { apply includes_validPlans. by exists s. }
  unfold put_user_plan, bind, ret, Date_now. rewrite Hinc, Htype.
  cbn [negb set_opt to_string_throws_opt to_string_throws].
  erewrite db_update_present by exact Hold. cbn [store].
  eexists _, _. split; [reflexivity|]. split; [apply lookup_insert_eq|].
  split; [by apply merge_overwrites|].
  split; intros Habsent; subst plan; rewrite Habsent; reflexivity.
Qed.

(** *** [PUT /api/user/profile] and the updates of both handlers *)

Lemma lookup_set_opt (k k' : string) (o : option value) (m : doc) :
  set_opt k o m !! k' =
    match o with
    | Some v => if decide (k = k') then Some v else m !! k'
    | None => m !! k'
    end.
Proof.
  destruct o as [v|]; [|done]. cbn. rewrite lookup_insert.
  by case_decide.
Qed.

Lemma profile_updates_lookup (body : doc) (now : Z) (k : string) :
  profile_updates toISOString body now !! k =
    if decide (k = "lastLogin") then Some (VStr (toISOString now))
    else if decide (k = "displayName") then body !! "displayName"
    else if decide (k = "photoURL") then body !! "photoURL"
    else None.
Proof.
  unfold profile_updates. cbn zeta. rewrite !lookup_set_opt.
  destruct (body !! "photoURL") as [p|], (body !! "displayName") as [n|];
    repeat case_decide; simplify_eq; try done;
    by rewrite ?lookup_singleton_eq, ?lookup_singleton_ne.
Qed.

Lemma put_user_profile_missing (user : Identity) (body : doc) (w : World) :
  store w !! uid user = None ->
  put_user_profile toISOString user body w =
    ({| status := 500; json := error_json "Failed to update profile" |},
     {| store := store w; clock := clock w; ticks := S (ticks w) |}).
Proof.
  intros Hnone. unfold put_user_profile, bind, ret, Date_now.
  by rewrite db_update_missing.
Qed.

Lemma put_user_profile_present (user : Identity) (body old : doc) (w : World) :
  store w !! uid user = Some old ->
  put_user_profile toISOString user body w =
    ({| status := 200; json := message_json "Profile updated successfully" |},
     {| store := <[uid user := profile_updates toISOString body (clock w (ticks w)) ∪ old]> (store w);
        clock := clock w; ticks := S (ticks w) |}).
Proof.
  intros Hold. unfold put_user_profile, bind, ret, Date_now.
  by erewrite db_update_present by exact Hold.
Qed.

Lemma put_user_plan_missing (user : Identity) (body : doc) (s : string) (w : World) :
  store w !! uid user = None ->
  body !! "planType" = Some (VStr s) ->
  s ∈ validPlans ->
  put_user_plan toISOString user body w =
    ({| status := 500; json := error_json "Failed to update plan" |},
     {| store := store w; clock := clock w; ticks := S (ticks w) |}).
Proof.
  intros Hnone Htype Hvalid.
  assert (includes validPlans (body !! "planType") = true) as Hinc.
  { apply includes_validPlans. by exists s. }
  unfold put_user_plan, bind, ret, Date_now.
  rewrite (to_string_throws_opt_str _ s Htype), Hinc. cbn [negb].
  by rewrite db_update_missing.
Qed.

(** For a user with no document, [update] fails with [NotFound], both
    updating handlers answer with their failure response, and the collection
    is left as it was.  For a user with a document, the profile update
    overwrites lastLogin with the current time and displayName and photoURL
    when the request supplies them, the plan update overwrites lastLogin and
    plan, and every other field of the document, and every other document,
    is as before. *)
Lemma update_not_found_or_merged (user : Identity) (body : doc) (w : World) :
  let now := clock w (ticks w) in
  (store w !! uid user = None ->
     (forall fields : doc, db_update (uid user) fields w = (inl NotFound, w)) /\
     (exists w',
        put_user_profile toISOString user body w =
          ({| status := 500; json := error_json "Failed to update profile" |}, w') /\
        store w' = store w) /\
     (forall s, body !! "planType" = Some (VStr s) -> s ∈ validPlans ->
      exists w',
        put_user_plan toISOString user body w =
          ({| status := 500; json := error_json "Failed to update plan" |}, w') /\
        store w' = store w)) /\
  (forall old : doc, store w !! uid user = Some old ->
     (exists (w' : World) (stored : doc),
        put_user_profile toISOString user body w =
          ({| status := 200; json := message_json "Profile updated successfully" |}, w') /\
        store w' = <[uid user := stored]> (store w) /\
        stored !! "lastLogin" = Some (VStr (toISOString now)) /\
        (forall k v, k = "displayName" \/ k = "photoURL" ->
           body !! k = Some v -> stored !! k = Some v) /\
        (forall k, k <> "lastLogin" ->
           ~ ((k = "displayName" \/ k = "photoURL") /\ is_Some (body !! k)) ->
           stored !! k = old !! k)) /\
     (forall s, body !! "planType" = Some (VStr s) -> s ∈ validPlans ->
      exists (w' : World) (stored : doc) (plan : value),
        status (fst (put_user_plan toISOString user body w)) = 200 /\
        snd (put_user_plan toISOString user body w) = w' /\
        store w' = <[uid user := stored]> (store w) /\
        stored !! "lastLogin" = Some (VStr (toISOString now)) /\
        stored !! "plan" = Some plan /\
        (forall k, k <> "lastLogin" -> k <> "plan" -> stored !! k = old !! k))).
Proof.
  intros now. split.
  - intros Hnone. split; [|split].
    + intros fields. by apply db_update_missing.
    + eexists. by rewrite put_user_profile_missing.
    + intros s Htype Hvalid. eexists.
      by erewrite put_user_plan_missing.
  - intros old Hold. split.
    + eexists _, _. rewrite (put_user_profile_present _ _ old) by done.
      split; [reflexivity|]. split; [reflexivity|].
      split; [|split].
      * apply merge_overwrites. by rewrite profile_updates_lookup.
      * intros k v Hk Hv. apply merge_overwrites. rewrite profile_updates_lookup.
        destruct Hk as [-> | ->]; by repeat case_decide.
      * intros k Hlast Hnot. apply merge_keeps. rewrite profile_updates_lookup.
        repeat case_decide; try done; subst.
        -- destruct (body !! "displayName") as [v|]; [|done].
           destruct Hnot. split; [by left | by exists v].
        -- destruct (body !! "photoURL") as [v|]; [|done].
           destruct Hnot. split; [by right | by exists v].
    + intros s Htype Hvalid.
      assert (includes validPlans (body !! "planType") = true) as Hinc.
      { apply includes_validPlans. by exists s. }
      unfold put_user_plan, bind, ret, Date_now.
      rewrite (to_string_throws_opt_str _ s Htype), Hinc. cbn [negb].
      erewrite db_update_present by exact Hold. cbn [fst snd status store].
      eexists _, _, _. split; [reflexivity|]. split; [reflexivity|].
      split; [reflexivity|]. split; [|split].
      * by apply merge_overwrites.
      * by apply merge_overwrites.
      * intros k Hlast Hplank. apply merge_keeps.
        by rewrite lookup_insert_ne, lookup_singleton_ne.
Qed.

(** *** [POST /api/user/create] *)

(** A create whose planType cannot be converted to a string is answered by
    the [catch] before the collection is read, and the world it ran in is
    the world it leaves. *)
Lemma post_user_create_throws (user : Identity) (body : doc) (w : World) :
  to_string_throws (create_planType body) = true ->
  post_user_create toISOString user body w =
    ({| status := 500; json := error_json "Failed to create user" |}, w).
Proof. intros Hthrows. unfold post_user_create. by rewrite Hthrows. Qed.

Lemma post_user_create_existing (user : Identity) (body old : doc) (w : World) :
  to_string_throws (create_planType body) = false ->
  store w !! uid user = Some old ->
  post_user_create toISOString user body w =
    ({| status := 409; json := error_json "User already exists" |}, w).
Proof.
  intros Hprints Hold. unfold post_user_create, bind, db_get.
  by rewrite Hprints, Hold.
Qed.

Lemma post_user_create_fresh (user : Identity) (body : doc) (w : World) :
  to_string_throws (create_planType body) = false ->
  store w !! uid user = None ->
  post_user_create toISOString user body w =
    create_commit toISOString user (create_planType body) None w.
Proof.
  intros Hprints Hnone. unfold post_user_create, bind, db_get.
  by rewrite Hprints, Hnone.
Qed.

(** The planType of a create that gives none, or gives a string, converts
    to a string. *)
Lemma create_planType_absent (body : doc) :
  body !! "planType" = None -> create_planType body = VStr "trial".
Proof. unfold create_planType. by intros ->. Qed.

Lemma create_planType_given (body : doc) (planType : value) :
  body !! "planType" = Some planType -> create_planType body = planType.
Proof. unfold create_planType. by intros ->. Qed.

(** The status of a create is 201, 409 or 500, whatever the request. *)
Lemma post_user_create_status (user : Identity) (body : doc) (w : World) :
  status (fst (post_user_create toISOString user body w)) = 201 \/
  status (fst (post_user_create toISOString user body w)) = 409 \/
  status (fst (post_user_create toISOString user body w)) = 500.
Proof.
  destruct (to_string_throws (create_planType body)) eqn:Hthrows.
  { right; right. by rewrite post_user_create_throws. }
  destruct (store w !! uid user) as [old|] eqn:Hw.
  - right; left. by erewrite post_user_create_existing.
  - left. rewrite post_user_create_fresh by done.
    unfold create_commit, bind, ret, Date_now, db_set.
    by destruct (strict_eq_str (create_planType body) "trial").
Qed.

Lemma strict_eq_str_true (v : value) (lit : string) :
  strict_eq_str v lit = true <-> v = VStr lit.
Proof.
  destruct v; cbn; try (split; [discriminate | congruence]).
  rewrite String.eqb_eq. split; congruence.
Qed.

Lemma strict_eq_str_false (v : value) (lit : string) :
  v <> VStr lit -> strict_eq_str v lit = false.
Proof.
  intros Hv. destruct (strict_eq_str v lit) eqn:Heq; [|done].
  by apply strict_eq_str_true in Heq.
Qed.

(** C8: a user created with planType trial (or with none, which defaults to
    trial) gets the plan type trial, status active, subscriptionStart and
    lastUpdated the time [now] the handler reads first, and subscriptionEnd
    seven days after the time [later] it reads second, which is [now] plus
    seven days when the clock has not advanced between the two readings;
    with any other planType that converts to a string the plan has that
    type and subscriptionEnd null. *)
Theorem create_trial_sets_expiry (user : Identity) (body : doc) (w : World) :
  store w !! uid user = None ->
  let now := clock w (ticks w) in
  let later := clock w (S (ticks w)) in
  (body !! "planType" = None \/ body !! "planType" = Some (VStr "trial") ->
   exists (w' : World) (stored : doc),
     post_user_create toISOString user body w =
       ({| status := 201;
           json := VObj {[ "message" := VStr "User created successfully";
                           "user" := VObj stored ]} |}, w') /\
     store w' !! uid user = Some stored /\
     stored !! "plan" =
       Some (VObj {[ "type" := VStr "trial";
                     "status" := VStr "active";
                     "subscriptionStart" := VStr (toISOString now);
                     "subscriptionEnd" := VStr (toISOString (later + 7 * MS_PER_DAY));
                     "lastUpdated" := VStr (toISOString now) ]}) /\
     (later = now ->
      stored !! "plan" =
        Some (VObj {[ "type" := VStr "trial";
                      "status" := VStr "active";
                      "subscriptionStart" := VStr (toISOString now);
                      "subscriptionEnd" := VStr (toISOString (now + 7 * MS_PER_DAY));
                      "lastUpdated" := VStr (toISOString now) ]}))) /\
  (forall planType : value,
   body !! "planType" = Some planType -> planType <> VStr "trial" ->
   to_string_throws planType = false ->
   exists (w' : World) (stored : doc),
     post_user_create toISOString user body w =
       ({| status := 201;
           json := VObj {[ "message" := VStr "User created successfully";
                           "user" := VObj stored ]} |}, w') /\
     store w' !! uid user = Some stored /\
     stored !! "plan" =
       Some (VObj {[ "type" := planType;
                     "status" := VStr "active";
                     "subscriptionStart" := VStr (toISOString now);
                     "subscriptionEnd" := VNull;
                     "lastUpdated" := VStr (toISOString now) ]})).
Proof.
  intros Hnone now later. split.
  - intros Htrial.
    assert (create_planType body = VStr "trial") as Hpt.
    { unfold create_planType. by destruct Htrial as [-> | ->]. }
    rewrite post_user_create_fresh by (done || by rewrite Hpt). rewrite Hpt.
    unfold create_commit, bind, ret, Date_now, db_set. cbn.
    fold now later.
    eexists _, _. split; [reflexivity|]. split; [apply lookup_insert_eq|].
    split; [reflexivity|]. by intros ->.
  - intros planType Hbody Hother Hprints.
    rewrite post_user_create_fresh
      by (done || by rewrite (create_planType_given _ _ Hbody)).
    rewrite (create_planType_given _ _ Hbody).
    unfold create_commit, bind, ret, Date_now, db_set.
    rewrite (strict_eq_str_false _ _ Hother). cbn. fold now.
    eexists _, _. split; [reflexivity|]. split; [apply lookup_insert_eq|].
    reflexivity.
Qed.

(** C10: the create path has no check of planType.  Its status is 201, 409
    or 500 for every request, never the 400 of a validation; and for every
    string [s], a create for a user with no document and planType [s] is
    answered 201 and stores a plan of type [s], with subscriptionEnd null
    unless [s] is trial. *)
Theorem create_accepts_any_plan_type (user : Identity) (body : doc) (w : World) :
  (status (fst (post_user_create toISOString user body w)) = 201 \/
   status (fst (post_user_create toISOString user body w)) = 409 \/
   status (fst (post_user_create toISOString user body w)) = 500) /\
  (forall s : string,
   store w !! uid user = None ->
   body !! "planType" = Some (VStr s) ->
   exists (stored plan : doc),
     status (fst (post_user_create toISOString user body w)) = 201 /\
     store (snd (post_user_create toISOString user body w)) !! uid user = Some stored /\
     stored !! "plan" = Some (VObj plan) /\
     plan !! "type" = Some (VStr s) /\
     (s <> "trial" -> plan !! "subscriptionEnd" = Some VNull)).
Proof.
  split; [apply post_user_create_status|].
  intros s Hnone Hbody.
  rewrite post_user_create_fresh
    by (done || by rewrite (create_planType_given _ _ Hbody)).
  rewrite (create_planType_given _ _ Hbody).
  unfold create_commit, bind, ret, Date_now, db_set.
  destruct (strict_eq_str (VStr s) "trial") eqn:Htrial; cbn.
  - eexists _, _. split; [reflexivity|]. split; [apply lookup_insert_eq|].
    split; [reflexivity|]. split; [reflexivity|].
    intros Hs. apply strict_eq_str_true in Htrial. congruence.
  - eexists _, _. split; [reflexivity|]. split; [apply lookup_insert_eq|].
    split; [reflexivity|]. split; reflexivity.
Qed.

(** *** [GET /api/user/stats] *)

(** C4: daysRemaining is null for a plan whose subscriptionEnd is null, and
    for a plan whose subscriptionEnd is the instant [e] it is the larger of 0
    and the ceiling of [(e - now)] over one day, the integer [days] with
    [days - 1 < (e - now) / day <= days]; thirty minutes before the end it
    is 1. *)
Theorem daysRemaining_ceiling (plan : doc) (now : Z) :
  (plan !! "subscriptionEnd" = Some VNull ->
   daysRemaining Date_of plan now = None) /\
  (forall (v : value) (e : Z),
   plan !! "subscriptionEnd" = Some v -> truthy v = true -> Date_of v = Some e ->
   exists days : Z,
     (days - 1) * MS_PER_DAY < e - now <= days * MS_PER_DAY /\
     daysRemaining Date_of plan now = Some (Num (Z.max 0 days))) /\
  (forall v : value,
   plan !! "subscriptionEnd" = Some v -> truthy v = true ->
   Date_of v = Some (now + 30 * 60 * 1000) ->
   daysRemaining Date_of plan now = Some (Num 1)).
Proof.
  unfold daysRemaining. split; [|split].
  - by intros ->.
  - intros v e -> -> ->. exists (ceil_div (e - now) MS_PER_DAY).
    split; [|done]. by apply ceil_div_bounds.
  - intros v -> -> ->. do 3 f_equal.
    rewrite (ceil_div_unique _ MS_PER_DAY 1); [done | done |].
    unfold MS_PER_DAY. lia.
Qed.

(** C5: isExpired is false for a plan whose subscriptionEnd is null, and for
    a plan whose subscriptionEnd is the instant [e] it is true exactly when
    [e < now]: false at [e = now], true at [e = now - 1000] milliseconds. *)
Theorem isExpired_strict (plan : doc) (now : Z) :
  (plan !! "subscriptionEnd" = Some VNull ->
   isExpired Date_of plan now = false) /\
  (forall (v : value) (e : Z),
   plan !! "subscriptionEnd" = Some v -> truthy v = true -> Date_of v = Some e ->
   (isExpired Date_of plan now = true <-> now > e) /\
   (e = now -> isExpired Date_of plan now = false) /\
   (e = now - 1000 -> isExpired Date_of plan now = true)).
Proof.
  unfold isExpired. split.
  - by intros ->.
  - intros v e -> -> ->. rewrite Z.gtb_ltb. split; [|split].
    + rewrite Z.ltb_lt. lia.
    + intros ->. apply Z.ltb_ge. lia.
    + intros ->. apply Z.ltb_lt. lia.
Qed.

(** The response of the stats handler carries [daysRemaining] at the first
    reading of the clock and [isExpired] at the second. *)
Lemma get_user_stats_computes (user : Identity) (body userData plan : doc)
    (v : value) (w : World) :
  store w !! uid user = Some userData ->
  userData !! "plan" = Some (VObj plan) ->
  plan !! "subscriptionEnd" = Some v ->
  truthy v = true ->
  to_string_throws v = false ->
  exists fields : doc,
    fst (get_user_stats Date_of user body w) = {| status := 200; json := VObj fields |} /\
    fields !! "daysRemaining" =
      Some (json_of_num (daysRemaining Date_of plan (clock w (ticks w)))) /\
    fields !! "isExpired" =
      Some (VBool (isExpired Date_of plan (clock w (S (ticks w))))).
Proof.
  intros Hdoc Hplan Hend Hv Hprints.
  unfold get_user_stats, bind, ret, db_get, Date_now. rewrite Hdoc, Hplan.
  cbn [from_option fields_of]. rewrite Hend.
  cbn [truthy_opt to_string_throws_opt]. rewrite Hv, Hprints.
  cbn [andb fst snd ticks clock store]. eexists. split; [reflexivity|].
  rewrite !lookup_set_opt.
  destruct (plan !! "type"), (plan !! "status"), (userData !! "createdAt");
    repeat case_decide; by simplify_eq.
Qed.

(** *** [authenticateToken] *)

Lemma split_space_no_space (s : string) :
  no_space s = true -> split_space s = [s].
Proof.
  induction s as [|c rest IH]; [done|]. cbn.
  destruct (Ascii.eqb c " "); [done|]. cbn. intros Hrest.
  by rewrite (IH Hrest).
Qed.

Lemma split_space_cons (scheme rest : string) :
  no_space scheme = true ->
  split_space (scheme +:+ String " " rest) = scheme :: split_space rest.
Proof.
  induction scheme as [|c scheme IH]; [done|].
  change (String c scheme +:+ String " " rest)
    with (String c (scheme +:+ String " " rest)).
  cbn [no_space split_space].
  destruct (Ascii.eqb c " "); [done|]. cbn [negb andb]. intros Hscheme.
  by rewrite (IH Hscheme).
Qed.

Lemma split_space_unfold (s : string) :
  split_space s =
    until_space s :: match after_space s with
                     | Some rest => split_space rest
                     | None => []
                     end.
Proof.
  induction s as [|c rest IH]; [done|]. cbn.
  destruct (Ascii.eqb c " "); [done|]. by rewrite IH.
Qed.

(** [authHeader.split(" ")[1]] is the second field of the header. *)
Lemma split_space_second (s : string) :
  split_space s !! 1%nat = second_field s.
Proof.
  rewrite split_space_unfold. unfold second_field. cbn.
  destruct (after_space s) as [rest|]; [|done]. cbn.
  by rewrite split_space_unfold.
Qed.

Lemma second_field_empty : second_field EmptyString = None.
Proof. reflexivity. Qed.

Lemma bearer_token_spec (h : string) :
  bearer_token (Some h) = second_field h \/
  (h = EmptyString /\ bearer_token (Some h) = Some EmptyString).
Proof.
  unfold bearer_token. destruct (String.eqb h "") eqn:Hempty.
  - right. by apply String.eqb_eq in Hempty as ->.
  - left. apply split_space_second.
Qed.

Lemma second_field_scheme_token (scheme tok : string) :
  no_space scheme = true -> no_space tok = true ->
  second_field (scheme +:+ String " " tok) = Some tok.
Proof.
  intros Hscheme Htok.
  rewrite <- split_space_second, split_space_cons, split_space_no_space by done.
  reflexivity.
Qed.

Lemma bearer_token_no_space (h : string) :
  no_space h = true ->
  bearer_token (Some h) = None \/ bearer_token (Some h) = Some EmptyString.
Proof.
  intros Hh. unfold bearer_token.
  destruct (String.eqb h "") eqn:Hempty.
  - right. by apply String.eqb_eq in Hempty as ->.
  - left. by rewrite split_space_no_space.
Qed.

Lemma bearer_token_second_field (scheme tok : string) :
  no_space scheme = true -> no_space tok = true ->
  bearer_token (Some (scheme +:+ String " " tok)) = Some tok.
Proof.
  intros Hscheme Htok. unfold bearer_token.
  destruct (String.eqb _ "") eqn:Hempty.
  - apply String.eqb_eq in Hempty. by destruct scheme.
  - by rewrite split_space_cons, split_space_no_space.
Qed.

Lemma authenticateToken_no_token (headers : gmap string string) (w : World) :
  bearer_token (headers !! "authorization") = None \/
  bearer_token (headers !! "authorization") = Some EmptyString ->
  authenticateToken JWT_SECRET jwt_verify headers w =
    (Rejected {| status := 401; json := error_json "Access token required" |}, w).
Proof.
  unfold authenticateToken. by intros [-> | ->].
Qed.

Lemma authenticateToken_token (headers : gmap string string) (t : string) (w : World) :
  bearer_token (headers !! "authorization") = Some t -> t <> EmptyString ->
  authenticateToken JWT_SECRET jwt_verify headers w =
    (match jwt_verify t JWT_SECRET (clock w (ticks w)) with
     | None => Rejected {| status := 403; json := error_json "Invalid or expired token" |}
     | Some decoded => Next {| uid := uid decoded; email := email decoded |}
     end,
     {| store := store w; clock := clock w; ticks := S (ticks w) |}).
Proof.
  intros Htok Hne. unfold authenticateToken, bind, ret, Date_now. rewrite Htok.
  destruct (String.eqb t "") eqn:Hempty.
  - by apply String.eqb_eq in Hempty.
  - by destruct (jwt_verify _ _ _).
Qed.

(** The middleware never writes to the collection. *)
Lemma auth_store_unchanged (headers : gmap string string) (w : World) :
  store (snd (authenticateToken JWT_SECRET jwt_verify headers w)) = store w.
Proof.
  unfold authenticateToken, bind, ret, Date_now.
  destruct (bearer_token _) as [t|]; [|done].
  destruct (String.eqb t ""); [done|].
  by destruct (jwt_verify _ _ _).
Qed.

(** C2, as the middleware implements it: it never changes the collection.  A
    request with no Authorization header, or with one that has no second
    space-separated field or an empty one, is answered 401.  Otherwise the
    second field is the token, whatever the first field is: when its
    verification fails the answer is 403, and when it succeeds the decoded
    uid and email become the identity of the request.  For a header
    [scheme token] the second field is [token], for every [scheme]. *)
Theorem auth_verifies_second_field (headers : gmap string string) (w : World) :
  let run := authenticateToken JWT_SECRET jwt_verify headers w in
  let unauthorized := Rejected {| status := 401; json := error_json "Access token required" |} in
  let forbidden := Rejected {| status := 403; json := error_json "Invalid or expired token" |} in
  store (snd run) = store w /\
  (headers !! "authorization" = None -> run = (unauthorized, w)) /\
  (forall h : string,
   headers !! "authorization" = Some h ->
   second_field h = None \/ second_field h = Some EmptyString ->
   run = (unauthorized, w)) /\
  (forall h tok : string,
   headers !! "authorization" = Some h ->
   second_field h = Some tok -> tok <> EmptyString ->
   fst run =
     match jwt_verify tok JWT_SECRET (clock w (ticks w)) with
     | None => forbidden
     | Some decoded => Next {| uid := uid decoded; email := email decoded |}
     end) /\
  (forall scheme tok : string,
   no_space scheme = true -> no_space tok = true ->
   second_field (scheme +:+ String " " tok) = Some tok).
Proof.
  intros run unauthorized forbidden. subst run unauthorized forbidden.
  split; [|split; [|split; [|split]]].
  - apply auth_store_unchanged.
  - intros Hnone. apply authenticateToken_no_token. rewrite Hnone. by left.
  - intros h Hh Hfield. apply authenticateToken_no_token. rewrite Hh.
    destruct (bearer_token_spec h) as [-> | [_ ->]]; [done | by right].
  - intros h tok Hh Hfield Hne.
    rewrite (authenticateToken_token _ tok); [done | | done].
    rewrite Hh. destruct (bearer_token_spec h) as [-> | [-> _]]; [done|].
    by rewrite second_field_empty in Hfield.
  - apply second_field_scheme_token.
Qed.

(** *** TokenCodec *)

(** C9: a token issued for an identity with a positive time to live
    verifies, under the same secret and at any time before its expiry, to
    that identity. *)
Theorem verify_issue_roundtrip (mac : string -> Identity -> Z -> Z -> string)
    (secret : string) (who : Identity) (now ttl at_time : Z) :
  0 < ttl ->
  at_time < TokenCodec.expiresAt (TokenCodec.issue mac secret who now ttl) ->
  TokenCodec.verify mac secret (TokenCodec.issue mac secret who now ttl) at_time
    = Some who.
Proof.
  intros Httl Hbefore. unfold TokenCodec.verify, TokenCodec.issue in *.
  cbn in *. rewrite String.eqb_refl. cbn.
  by rewrite (proj2 (Z.ltb_lt _ _) Hbefore).
Qed.

(** At or after its expiry a token does not verify, whatever its signature. *)
Lemma verify_expired (mac : string -> Identity -> Z -> Z -> string)
    (secret : string) (tok : TokenCodec.Token) (at_time : Z) :
  TokenCodec.expiresAt tok <= at_time ->
  TokenCodec.verify mac secret tok at_time = None.
Proof.
  intros Hlate. unfold TokenCodec.verify.
  rewrite (proj2 (Z.ltb_ge _ _) Hlate). by rewrite andb_false_r.
Qed.

(** A token whose signature is not the one the secret gives does not verify. *)
Lemma verify_tampered (mac : string -> Identity -> Z -> Z -> string)
    (secret : string) (tok : TokenCodec.Token) (at_time : Z) :
  TokenCodec.signature tok <>
    mac secret (TokenCodec.subject tok) (TokenCodec.issuedAt tok) (TokenCodec.expiresAt tok) ->
  TokenCodec.verify mac secret tok at_time = None.
Proof.
  intros Hsig. unfold TokenCodec.verify.
  by rewrite (proj2 (String.eqb_neq _ _) Hsig).
Qed.

(** *** Create requests that overlap *)

(** A create task that runs its two steps back to back is the handler. *)
Lemma create_steps_are_handler (user : Identity) (body : doc) (w : World) :
  (do t <- create_step toISOString (Arrived user body); create_step toISOString t) w =
  (do res <- post_user_create toISOString user body; ret (Responded res)) w.
Proof.
  unfold create_step, post_user_create, bind, ret, db_get.
  destruct (to_string_throws (create_planType body)); [done|].
  by destruct (create_commit _ _ _ _ _).
Qed.

(** Two create requests for one user that run one after the other: the
    second is answered 409 and the first one's document stays. *)
Lemma serial_creates_one_winner (user : Identity) (body1 body2 : doc) (w : World) :
  to_string_throws (create_planType body1) = false ->
  to_string_throws (create_planType body2) = false ->
  store w !! uid user = None ->
  let run := run_schedule toISOString [0; 0; 1; 1]%nat
               [Arrived user body1; Arrived user body2] w in
  task_status <$> fst run = [Some 201; Some 409] /\
  store (snd run) = store (snd (post_user_create toISOString user body1 w)).
Proof.
  intros Hprints1 Hprints2 Hnone run. subst run.
  rewrite post_user_create_fresh by done.
  unfold run_schedule, create_step, create_commit, bind, ret, db_get, db_set, Date_now.
  cbn. rewrite Hprints1, Hprints2, Hnone.
  destruct (strict_eq_str (create_planType body1) "trial"); cbn;
    by rewrite lookup_insert_eq.
Qed.

(** Two create requests for one user whose reads both run before either
    write: both are answered 201, and the document left in the collection is
    the one the second writer built. *)
Lemma overlapping_creates_both_win (user : Identity) (body1 body2 : doc) (w : World) :
  to_string_throws (create_planType body1) = false ->
  to_string_throws (create_planType body2) = false ->
  store w !! uid user = None ->
  let run := run_schedule toISOString [0; 1; 0; 1]%nat
               [Arrived user body1; Arrived user body2] w in
  task_status <$> fst run = [Some 201; Some 201] /\
  exists (stored plan : doc),
    store (snd run) !! uid user = Some stored /\
    stored !! "plan" = Some (VObj plan) /\
    plan !! "type" = Some (create_planType body2).
Proof.
  intros Hprints1 Hprints2 Hnone run. subst run.
  unfold run_schedule, create_step, create_commit, bind, ret, db_get, db_set, Date_now.
  cbn. rewrite Hprints1, Hprints2, Hnone.
  destruct (strict_eq_str (create_planType body1) "trial"),
    (strict_eq_str (create_planType body2) "trial"); cbn;
    (split; [reflexivity|]); eexists _, _;
    (split; [apply lookup_insert_eq|]); split; reflexivity.
Qed.

(** What the create handler stores for a trial whatever the clock does
    between its two readings: the start is the first reading, the end is
    seven days after the second. *)
Lemma create_expiry_uses_second_reading (user : Identity) (body : doc) (w : World) :
  store w !! uid user = None ->
  create_planType body = VStr "trial" ->
  exists (stored plan : doc),
    store (snd (post_user_create toISOString user body w)) !! uid user = Some stored /\
    stored !! "plan" = Some (VObj plan) /\
    plan !! "subscriptionStart" = Some (VStr (toISOString (clock w (ticks w)))) /\
    plan !! "subscriptionEnd" =
      Some (VStr (toISOString (clock w (S (ticks w)) + SEVEN_DAYS))).
Proof.
  intros Hnone Htrial.
  rewrite post_user_create_fresh by (done || by rewrite Htrial). rewrite Htrial.
  unfold create_commit, bind, ret, Date_now, db_set. cbn.
  eexists _, _. split; [apply lookup_insert_eq|]. split; [reflexivity|].
  split; reflexivity.
Qed.

(** *** Protected routes, and the token route *)

(** A request the middleware rejects never reaches its handler: the
    response is the middleware's and the collection is untouched. *)
Lemma protected_rejected (handler : Identity -> doc -> M response)
    (headers : gmap string string) (body : doc) (w : World) (res : response) :
  fst (authenticateToken JWT_SECRET jwt_verify headers w) = Rejected res ->
  fst (protected JWT_SECRET jwt_verify handler headers body w) = res /\
  store (snd (protected JWT_SECRET jwt_verify handler headers body w)) = store w.
Proof.
  unfold protected, bind, ret.
  pose proof (auth_store_unchanged headers w) as Hstore.
  destruct (authenticateToken _ _ _ _) as [outcome w']. cbn in *.
  by intros ->.
Qed.

Lemma post_auth_generate_token_ok (u e : string) (w : World) :
  u <> EmptyString -> e <> EmptyString ->
  fst (post_auth_generate_token JWT_SECRET jwt_sign (Some u) (Some e) w) =
    {| status := 200;
       json := VObj {[ "token" :=
                 VStr (jwt_sign {| uid := u; email := e |} JWT_SECRET
                         (7 * MS_PER_DAY) (clock w (ticks w))) ]} |}.
Proof.
  intros Hu He. unfold post_auth_generate_token, bind, ret, Date_now.
  by rewrite (proj2 (String.eqb_neq _ _) Hu), (proj2 (String.eqb_neq _ _) He).
Qed.

Lemma post_auth_generate_token_missing (u e : option string) (w : World) :
  u = None \/ u = Some EmptyString \/ e = None \/ e = Some EmptyString ->
  post_auth_generate_token JWT_SECRET jwt_sign u e w =
    ({| status := 400; json := error_json "Missing required user data" |}, w).
Proof.
  unfold post_auth_generate_token.
  intros [-> | [-> | [-> | ->]]]; try done.
  - by destruct e.
  - by destruct u.
  - destruct u as [u|]; [|done]. by rewrite orb_true_r.
Qed.

(** With the codec of the spec behind [jwt.verify], a token that does not
    parse, a token past its expiry and a token with a foreign signature are
    all answered 403. *)
Lemma auth_rejects_bad_tokens (mac : string -> Identity -> Z -> Z -> string)
    (decode : string -> option TokenCodec.Token)
    (headers : gmap string string) (t : string) (w : World) :
  bearer_token (headers !! "authorization") = Some t -> t <> EmptyString ->
  (decode t = None \/
   exists tok, decode t = Some tok /\
     (TokenCodec.expiresAt tok <= clock w (ticks w) \/
      TokenCodec.signature tok <>
        mac JWT_SECRET (TokenCodec.subject tok) (TokenCodec.issuedAt tok)
          (TokenCodec.expiresAt tok))) ->
  fst (authenticateToken JWT_SECRET (codec_verify mac decode) headers w) =
    Rejected {| status := 403; json := error_json "Invalid or expired token" |}.
Proof.
  intros Htok Hne Hbad. unfold authenticateToken, bind, ret, Date_now.
  rewrite Htok, (proj2 (String.eqb_neq _ _) Hne). cbn [fst clock ticks].
  assert (codec_verify mac decode t JWT_SECRET (clock w (ticks w)) = None) as ->; [|done].
  unfold codec_verify. destruct Hbad as [-> | (tok & -> & [Hlate | Hsig])]; [done | |].
  - by apply verify_expired.
  - by apply verify_tampered.
Qed.

(** *** The router *)

Abbreviation serve_ := (serve toISOString Date_of JWT_SECRET jwt_verify jwt_sign).
Abbreviation serve_all_ := (serve_all toISOString Date_of JWT_SECRET jwt_verify jwt_sign).
Abbreviation protected_ := (protected JWT_SECRET jwt_verify).

(** The outcome of a protected route, by the token of the request. *)
Lemma protected_cases (handler : Identity -> doc -> M response)
    (headers : gmap string string) (body : doc) (w : World) :
  (exists res,
     protected_ handler headers body w = (res, w) /\ status res = 401 /\
     (bearer_token (headers !! "authorization") = None \/
      bearer_token (headers !! "authorization") = Some EmptyString)) \/
  (exists tok,
     bearer_token (headers !! "authorization") = Some tok /\ tok <> EmptyString /\
     jwt_verify tok JWT_SECRET (clock w (ticks w)) = None /\
     exists res,
       protected_ handler headers body w =
         (res, {| store := store w; clock := clock w; ticks := S (ticks w) |}) /\
       status res = 403) \/
  (exists tok decoded,
     bearer_token (headers !! "authorization") = Some tok /\ tok <> EmptyString /\
     jwt_verify tok JWT_SECRET (clock w (ticks w)) = Some decoded /\
     protected_ handler headers body w =
       handler {| uid := uid decoded; email := email decoded |} body
         {| store := store w; clock := clock w; ticks := S (ticks w) |}).
Proof.
  unfold protected, bind.
  destruct (bearer_token (headers !! "authorization")) as [tok|] eqn:Htok.
  - destruct (decide (tok = EmptyString)) as [-> | Hne].
    + left. rewrite authenticateToken_no_token by (rewrite Htok; by right).
      eexists. split; [reflexivity|]. split; [done | by right].
    + right. rewrite (authenticateToken_token _ tok) by done.
      destruct (jwt_verify tok JWT_SECRET (clock w (ticks w))) as [decoded|] eqn:Hv.
      * right. by exists tok, decoded.
      * left. exists tok. repeat split; try done. eexists. by split.
  - left. rewrite authenticateToken_no_token by (rewrite Htok; by left).
    eexists. split; [reflexivity|]. split; [done | by left].
Qed.

Lemma serve_routes (req : request) :
  serve_ req =
    match req with
    | GET_health h => protected_ (get_health toISOString) h ∅
    | GET_auth_verify h => protected_ get_auth_verify h ∅
    | POST_auth_logout h => protected_ post_auth_logout h ∅
    | GET_user_profile h => protected_ get_user_profile h ∅
    | POST_user_create h b => protected_ (post_user_create toISOString) h b
    | PUT_user_plan h b => protected_ (put_user_plan toISOString) h b
    | PUT_user_profile h b => protected_ (put_user_profile toISOString) h b
    | GET_user_stats h => protected_ (get_user_stats Date_of) h ∅
    | POST_auth_generate_token _ _ | Unrouted =>
        ret {| status := 404; json := error_json "Endpoint not found" |}
    | Malformed_body =>
        ret {| status := 500; json := error_json "Internal server error" |}
    end.
Proof. by destruct req. Qed.

(** *** What each handler does to the collection *)

Lemma get_health_store (user : Identity) (body : doc) (w : World) :
  store (snd (get_health toISOString user body w)) = store w.
Proof. reflexivity. Qed.

Lemma get_user_profile_store (user : Identity) (body : doc) (w : World) :
  snd (get_user_profile user body w) = w.
Proof.
  unfold get_user_profile, bind, ret, db_get. by destruct (store w !! uid user).
Qed.

Lemma get_user_stats_store (user : Identity) (body : doc) (w : World) :
  store (snd (get_user_stats Date_of user body w)) = store w.
Proof.
  unfold get_user_stats, bind, ret, db_get, Date_now.
  destruct (store w !! uid user) as [userData|]; [|done].
  destruct (from_option fields_of None (userData !! "plan")) as [plan|]; [|done].
  destruct (truthy_opt (plan !! "subscriptionEnd")); [|done].
  by destruct (to_string_throws_opt (plan !! "subscriptionEnd")).
Qed.

Lemma post_user_create_store (user : Identity) (body : doc) (w : World) :
  store (snd (post_user_create toISOString user body w)) = store w \/
  (store w !! uid user = None /\
   exists created : doc,
     store (snd (post_user_create toISOString user body w))
       = <[uid user := created]> (store w) /\
     created !! "uid" = Some (VStr (uid user)) /\
     exists plan : doc,
       created !! "plan" = Some (VObj plan) /\
       plan !! "status" = Some (VStr "active") /\
       (plan !! "subscriptionEnd" = Some VNull \/
        exists t, plan !! "subscriptionEnd" = Some (VStr (toISOString t)))).
Proof.
  destruct (to_string_throws (create_planType body)) eqn:Hthrows.
  { left. by rewrite post_user_create_throws. }
  destruct (store w !! uid user) as [old|] eqn:Hw.
  - left. by erewrite post_user_create_existing.
  - right. split; [done|]. rewrite post_user_create_fresh by done.
    unfold create_commit, bind, ret, Date_now, db_set.
    destruct (strict_eq_str (create_planType body) "trial"); cbn;
      (eexists; split; [reflexivity|]; split; [reflexivity|];
       eexists; split; [reflexivity|]; split; [reflexivity|]).
    + right. by eexists.
    + by left.
Qed.

Lemma put_user_plan_store (user : Identity) (body : doc) (w : World) :
  store (snd (put_user_plan toISOString user body w)) = store w \/
  (exists (old plan : doc),
     store w !! uid user = Some old /\
     store (snd (put_user_plan toISOString user body w))
       = <[uid user := {[ "plan" := VObj plan;
                          "lastLogin" := VStr (toISOString (clock w (ticks w))) ]} ∪ old]>
           (store w) /\
     plan !! "status" = Some (VStr "active") /\
     plan !! "subscriptionEnd" = Some (or_null (body !! "subscriptionEnd"))).
Proof.
  unfold put_user_plan, bind, ret, Date_now, db_update.
  destruct (to_string_throws_opt (body !! "planType")); [by left|].
  destruct (includes validPlans (body !! "planType")); cbn [negb]; [|by left].
  cbn [store clock ticks].
  destruct (store w !! uid user) as [old|] eqn:Hw; [|by left].
  right.
  exists old,
    (set_opt "type" (body !! "planType")
       {[ "status" := VStr "active";
          "subscriptionStart" := VStr (toISOString (clock w (ticks w)));
          "subscriptionEnd" := or_null (body !! "subscriptionEnd");
          "stripeCustomerId" := or_null (body !! "stripeCustomerId");
          "lastUpdated" := VStr (toISOString (clock w (ticks w))) ]}).
  split; [done|]. split; [done|].
  rewrite !lookup_set_opt. by destruct (body !! "planType").
Qed.

Lemma put_user_profile_store (user : Identity) (body : doc) (w : World) :
  store (snd (put_user_profile toISOString user body w)) = store w \/
  (exists old : doc,
     store w !! uid user = Some old /\
     store (snd (put_user_profile toISOString user body w))
       = <[uid user := profile_updates toISOString body (clock w (ticks w)) ∪ old]>
           (store w)).
Proof.
  destruct (store w !! uid user) as [old|] eqn:Hw.
  - right. exists old. split; [done|]. by erewrite put_user_profile_present.
  - left. by rewrite put_user_profile_missing.
Qed.

(** *** What a request does to the collection *)

(** Every request leaves the collection as it was, or is one of the three
    writing requests with a token that verifies, and then writes the one
    document of the verified uid. *)
Lemma serve_store_effect (req : request) (w : World) :
  store (snd (serve_ req w)) = store w \/
  exists (h : gmap string string) (b : doc) (tok : string) (decoded : Identity),
    request_headers req = Some h /\
    bearer_token (h !! "authorization") = Some tok /\
    jwt_verify tok JWT_SECRET (clock w (ticks w)) = Some decoded /\
    ((req = POST_user_create h b /\
      store w !! uid decoded = None /\
      exists created : doc,
        store (snd (serve_ req w)) = <[uid decoded := created]> (store w) /\
        created !! "uid" = Some (VStr (uid decoded)) /\
        exists plan : doc,
          created !! "plan" = Some (VObj plan) /\
          plan !! "status" = Some (VStr "active") /\
          (plan !! "subscriptionEnd" = Some VNull \/
           exists t, plan !! "subscriptionEnd" = Some (VStr (toISOString t)))) \/
     (req = PUT_user_plan h b /\
      exists (old plan : doc),
        store w !! uid decoded = Some old /\
        store (snd (serve_ req w))
          = <[uid decoded :=
                {[ "plan" := VObj plan;
                   "lastLogin" := VStr (toISOString (clock w (S (ticks w)))) ]} ∪ old]>
              (store w) /\
        plan !! "status" = Some (VStr "active") /\
        plan !! "subscriptionEnd" = Some (or_null (b !! "subscriptionEnd"))) \/
     (req = PUT_user_profile h b /\
      exists old : doc,
        store w !! uid decoded = Some old /\
        store (snd (serve_ req w))
          = <[uid decoded :=
                profile_updates toISOString b (clock w (S (ticks w))) ∪ old]>
              (store w))).
Proof.
  rewrite serve_routes.
  destruct req as [h|h|h|h|h b|h b|h b|h|u e| |]; try (by left);
    match goal with
    | |- context [protected _ _ ?handler ?h ?b ?w] =>
        destruct (protected_cases handler h b w)
          as [(res & -> & _) | [(tok & _ & _ & _ & res & -> & _)
                               | (tok & decoded & Htok & _ & Hv & ->)]];
        [by left | by left |]
    end.
  - by left.
  - by left.
  - by left.
  - left. by rewrite get_user_profile_store.
  - destruct (post_user_create_store
                {| uid := uid decoded; email := email decoded |} b
                {| store := store w; clock := clock w; ticks := S (ticks w) |})
      as [-> | (Hnone & created & -> & Hcreated)]; [by left|].
    right. exists h, b, tok, decoded. repeat (split; [done|]).
    left. split; [done|]. split; [done|]. by exists created.
  - destruct (put_user_plan_store
                {| uid := uid decoded; email := email decoded |} b
                {| store := store w; clock := clock w; ticks := S (ticks w) |})
      as [-> | (old & plan & Hold & -> & Hplan)]; [by left|].
    right. exists h, b, tok, decoded. repeat (split; [done|]).
    right. left. split; [done|]. by exists old, plan.
  - destruct (put_user_profile_store
                {| uid := uid decoded; email := email decoded |} b
                {| store := store w; clock := clock w; ticks := S (ticks w) |})
      as [-> | (old & Hold & ->)]; [by left|].
    right. exists h, b, tok, decoded. repeat (split; [done|]).
    right. right. split; [done|]. by exists old.
  - left. by rewrite get_user_stats_store.
Qed.

(** X1: only the create, plan and profile-update routes ever write.  Every
    other request, whatever its token, leaves every document of the
    collection as it was; in particular reading a profile or the stats does
    not refresh lastLogin. *)
Theorem read_only_requests_keep_store (req : request) (w : World) :
  (forall h b, req <> POST_user_create h b) ->
  (forall h b, req <> PUT_user_plan h b) ->
  (forall h b, req <> PUT_user_profile h b) ->
  store (snd (serve toISOString Date_of JWT_SECRET jwt_verify jwt_sign req w)) = store w.
Proof.
  intros Hcreate Hplan Hprofile.
  destruct (serve_store_effect req w)
    as [Hsame | (h & b & tok & decoded & _ & _ & _ & Hwrite)]; [done|].
  destruct Hwrite as [[Hreq _] | [[Hreq _] | [Hreq _]]].
  - by destruct (Hcreate h b).
  - by destruct (Hplan h b).
  - by destruct (Hprofile h b).
Qed.

(** X2: a request changes no document but the one of the identity its token
    verifies to.  If the token of a request does not verify to the uid [k],
    or the request carries none, the document stored under [k] is after the
    request what it was before, present or absent. *)
Theorem requests_touch_own_document_only (req : request) (w : World) (k : string) :
  (forall h tok decoded,
     request_headers req = Some h ->
     bearer_token (h !! "authorization") = Some tok ->
     jwt_verify tok JWT_SECRET (clock w (ticks w)) = Some decoded ->
     uid decoded <> k) ->
  store (snd (serve toISOString Date_of JWT_SECRET jwt_verify jwt_sign req w)) !! k
    = store w !! k.
Proof.
  intros Hother.
  destruct (serve_store_effect req w)
    as [-> | (h & b & tok & decoded & Hh & Htok & Hv & Hwrite)]; [done|].
  specialize (Hother h tok decoded Hh Htok Hv).
  destruct Hwrite as [(_ & _ & created & -> & _)
                     | [(_ & old & plan & _ & -> & _) | (_ & old & _ & ->)]];
    by rewrite lookup_insert_ne.
Qed.

(** *** Sequences of requests *)

Lemma serve_all_cons (req : request) (rest : list request) (w : World) :
  snd (serve_all_ (req :: rest) w) = snd (serve_all_ rest (snd (serve_ req w))).
Proof.
  cbn [serve_all]. unfold bind, ret.
  destruct (serve_ req w) as [res w1]. cbn [snd].
  by destruct (serve_all_ rest w1).
Qed.

(** One request keeps every document, and every field of it but the four
    that the updates write. *)
Lemma serve_keeps_document (req : request) (w : World) (k : string) (d : doc) :
  store w !! k = Some d ->
  exists d' : doc,
    store (snd (serve_ req w)) !! k = Some d' /\
    forall f : string,
      f <> "plan" -> f <> "lastLogin" -> f <> "displayName" -> f <> "photoURL" ->
      d' !! f = d !! f.
Proof.
  intros Hk.
  destruct (serve_store_effect req w)
    as [-> | (h & b & tok & decoded & _ & _ & _ & Hwrite)]; [by exists d|].
  destruct Hwrite as [(_ & Hnone & created & -> & _)
                     | [(_ & old & plan & Hold & -> & _) | (_ & old & Hold & ->)]].
  - exists d. split; [|done]. rewrite lookup_insert_ne; [done|]. congruence.
  - destruct (decide (uid decoded = k)) as [<- | Hne].
    + rewrite lookup_insert_eq. eexists. split; [done|].
      intros f Hplan Hlast _ _. rewrite merge_keeps; [congruence|].
      by rewrite lookup_insert_ne, lookup_singleton_ne.
    + exists d. by rewrite lookup_insert_ne.
  - destruct (decide (uid decoded = k)) as [<- | Hne].
    + rewrite lookup_insert_eq. eexists. split; [done|].
      intros f _ Hlast Hname Hphoto. rewrite merge_keeps; [congruence|].
      rewrite profile_updates_lookup. by repeat case_decide.
    + exists d. by rewrite lookup_insert_ne.
Qed.

(** X3: requests served one after the other, each answered before the next
    is read, delete or replace no document.  A document that is in the
    collection is still there after any sequence of such requests, and all
    of its fields other than plan, lastLogin, displayName and photoURL (its
    uid, email and createdAt among them) are what they were.  (Two creates
    that overlap can replace a document: [overlapping_creates_both_win].) *)
Theorem documents_persist (reqs : list request) (w : World) (k : string) (d : doc) :
  store w !! k = Some d ->
  exists d' : doc,
    store (snd (serve_all toISOString Date_of JWT_SECRET jwt_verify jwt_sign reqs w)) !! k
      = Some d' /\
    forall f : string,
      f <> "plan" -> f <> "lastLogin" -> f <> "displayName" -> f <> "photoURL" ->
      d' !! f = d !! f.
Proof.
  revert w d. induction reqs as [|req rest IH]; intros w d Hk.
  - by exists d.
  - rewrite serve_all_cons.
    destruct (serve_keeps_document req w k d Hk) as (d1 & Hk1 & Hsame1).
    destruct (IH _ d1 Hk1) as (d' & Hk' & Hsame').
    exists d'. split; [done|]. intros f ? ? ? ?.
    rewrite Hsame' by done. by apply Hsame1.
Qed.

Lemma serve_all_keeps_user (reqs : list request) (w : World) (k : string) :
  is_Some (store w !! k) -> is_Some (store (snd (serve_all_ reqs w)) !! k).
Proof.
  revert w. induction reqs as [|req rest IH]; intros w [d Hk]; [by exists d|].
  rewrite serve_all_cons.
  destruct (serve_keeps_document req w k d Hk) as (d1 & Hk1 & _).
  apply IH. by exists d1.
Qed.

(** X4: a user is created at most once by requests served one after the
    other.  Once a document exists for a uid, then after any sequence of such
    requests a create for that uid changes nothing and is never answered
    201: the answer is 409 "User already exists", or 500 "Failed to create
    user" when the planType of the request cannot be converted to a string
    for the log line. *)
Theorem create_conflicts_forever (reqs : list request) (user : Identity)
    (body : doc) (w : World) :
  is_Some (store w !! uid user) ->
  let w' := snd (serve_all toISOString Date_of JWT_SECRET jwt_verify jwt_sign reqs w) in
  post_user_create toISOString user body w' =
    (if to_string_throws (create_planType body)
     then {| status := 500; json := error_json "Failed to create user" |}
     else {| status := 409; json := error_json "User already exists" |}, w').
Proof.
  intros Hexists w'.
  destruct (serve_all_keeps_user reqs w (uid user) Hexists) as [d' Hd'].
  destruct (to_string_throws (create_planType body)) eqn:Hthrows.
  - by apply post_user_create_throws.
  - by apply (post_user_create_existing _ _ d').
Qed.

(** *** The shape of stored documents *)

Lemma doc_ok_fields (k : string) (d d' : doc) :
  d' !! "uid" = d !! "uid" -> d' !! "plan" = d !! "plan" ->
  doc_ok k d' = doc_ok k d.
Proof. unfold doc_ok. by intros -> ->. Qed.

Lemma plan_ok_intro (plan : doc) (v : value) :
  plan !! "status" = Some (VStr "active") ->
  plan !! "subscriptionEnd" = Some v ->
  v = VNull \/ truthy v = true ->
  plan_ok plan = true.
Proof.
  intros Hstatus Hend Hv. unfold plan_ok. rewrite Hstatus, Hend. cbn.
  destruct Hv as [-> | Hv]; [done|]. by destruct v.
Qed.

Lemma doc_ok_plan (k : string) (d : doc) :
  doc_ok k d = true ->
  exists plan : doc, d !! "plan" = Some (VObj plan) /\ plan_ok plan = true.
Proof.
  unfold doc_ok. intros [_ Hplan]%andb_true_iff.
  destruct (d !! "plan") as [[| | | | |plan]|]; try done. by exists plan.
Qed.

Section NonEmptyTimestamps.

(** An ISO timestamp is never the empty string. *)
Hypothesis toISOString_nonempty : forall t : Z, toISOString t <> EmptyString.

Lemma serve_keeps_store_ok (req : request) (w : World) :
  store_ok (store w) -> store_ok (store (snd (serve_ req w))).
Proof.
  intros Hok.
  destruct (serve_store_effect req w)
    as [-> | (h & b & tok & decoded & _ & _ & _ & Hwrite)]; [done|].
  destruct Hwrite as [(_ & _ & created & -> & Huid & plan & Hplan & Hstatus & Hend)
                     | [(_ & old & plan & Hold & -> & Hstatus & Hend)
                       | (_ & old & Hold & ->)]];
    intros k d; rewrite lookup_insert; case_decide as Hk; try (by apply Hok);
    intros [= <-]; subst k.
  - unfold doc_ok. rewrite Huid, Hplan, String.eqb_refl. cbn.
    destruct Hend as [Hend | [t Hend]].
    + by apply (plan_ok_intro _ VNull); [| |left].
    + apply (plan_ok_intro _ (VStr (toISOString t))); [done | done | right].
      cbn. apply negb_true_iff, String.eqb_neq, toISOString_nonempty.
  - specialize (Hok _ _ Hold). unfold doc_ok in *.
    apply andb_true_iff in Hok as [Huid _].
    rewrite merge_keeps by done. rewrite Huid. cbn.
    erewrite merge_overwrites by done.
    apply (plan_ok_intro _ _ Hstatus Hend), or_null_cases.
  - rewrite <- (Hok _ _ Hold). apply doc_ok_fields.
    + apply merge_keeps. rewrite profile_updates_lookup. by repeat case_decide.
    + apply merge_keeps. rewrite profile_updates_lookup. by repeat case_decide.
Qed.

(** X5: the server keeps its documents well formed under requests served
    one after the other.  When every document of the collection is keyed by
    its uid field and has a plan object with status active and a
    subscriptionEnd that is null or truthy, as in the empty collection, the
    same holds after any sequence of requests.  The stats of a user are then
    answered 404 when the user has no document, and otherwise 200, unless
    the stored subscriptionEnd is an object or array that [new Date] cannot
    convert, and then 500; a plan change stores such a value as it is. *)
Theorem stored_documents_stay_well_formed (reqs : list request) (w : World) :
  store_ok (store w) ->
  let w' := snd (serve_all toISOString Date_of JWT_SECRET jwt_verify jwt_sign reqs w) in
  store_ok (store w') /\
  forall (user : Identity) (body : doc),
    match store w' !! uid user with
    | None => status (fst (get_user_stats Date_of user body w')) = 404
    | Some userData =>
        exists plan : doc,
          userData !! "plan" = Some (VObj plan) /\
          status (fst (get_user_stats Date_of user body w')) =
            if to_string_throws_opt (plan !! "subscriptionEnd") then 500 else 200
    end.
Proof.
  intros Hok w'.
  assert (store_ok (store w')) as Hok'.
  { subst w'. revert w Hok. induction reqs as [|req rest IH]; intros w Hok; [done|].
    rewrite serve_all_cons. by apply IH, serve_keeps_store_ok. }
  split; [done|]. intros user body.
  unfold get_user_stats, bind, ret, db_get, Date_now.
  destruct (store w' !! uid user) as [userData|] eqn:Hdoc; [|done].
  destruct (doc_ok_plan _ _ (Hok' _ _ Hdoc)) as (plan & Hplan & Hplan_ok).
  exists plan. split; [done|]. rewrite Hplan. cbn [from_option fields_of].
  destruct (plan !! "subscriptionEnd") as [v|] eqn:Hend; [|done].
  cbn [truthy_opt to_string_throws_opt].
  destruct (to_string_throws v) eqn:Hthrows.
  - assert (truthy v = true) as -> by (by destruct v). done.
  - rewrite andb_false_r. by destruct (truthy v).
Qed.

End NonEmptyTimestamps.

(** X6: the token route is dead.  The catch-all of line 292 is registered
    before the route of line 304 and answers first: a request for
    [POST /api/auth/generate-token] gets 404 "Endpoint not found" whatever
    its body, nothing the server answers depends on [jwt.sign], and no
    request changes the world through it. *)
Theorem generate_token_route_unreachable (uid_field email_field : option string)
    (w : World) :
  serve toISOString Date_of JWT_SECRET jwt_verify jwt_sign
    (POST_auth_generate_token uid_field email_field) w
    = ({| status := 404; json := error_json "Endpoint not found" |}, w) /\
  forall (other_sign : Identity -> string -> Z -> Z -> string) (req : request),
    serve toISOString Date_of JWT_SECRET jwt_verify other_sign req w
      = serve toISOString Date_of JWT_SECRET jwt_verify jwt_sign req w.
Proof.
  split; [done|]. intros other_sign req. by destruct req.
Qed.

(** *** [GET /api/user/profile] *)

Lemma lookup_set_opt_ne (k f : string) (o : option value) (m : doc) :
  k <> f -> set_opt k o m !! f = m !! f.
Proof.
  intros Hne. rewrite lookup_set_opt. destruct o; [|done]. by case_decide.
Qed.

Lemma lookup_set_opt_eq (k : string) (o : option value) (m : doc) :
  m !! k = None -> set_opt k o m !! k = o.
Proof.
  intros Hm. rewrite lookup_set_opt. destruct o; [|done]. by case_decide.
Qed.

Lemma get_user_profile_present (user : Identity) (body d : doc) (w : World) :
  store w !! uid user = Some d ->
  exists fields : doc,
    get_user_profile user body w = ({| status := 200; json := VObj fields |}, w) /\
    fields !! "uid" = Some (VStr (uid user)) /\
    fields !! "email" = Some (VStr (email user)) /\
    forall f : string, f <> "uid" -> f <> "email" ->
      fields !! f =
        if decide (f ∈ ["displayName"; "photoURL"; "plan"; "createdAt"; "lastLogin"])
        then d !! f else None.
Proof.
  unfold get_user_profile, bind, ret, db_get.
  intros ->. eexists. split; [reflexivity|].
  split; [|split].
  - by rewrite !lookup_set_opt_ne.
  - by rewrite !lookup_set_opt_ne.
  - intros f Huid Hemail.
    destruct (decide (f ∈ ["displayName"; "photoURL"; "plan"; "createdAt"; "lastLogin"]))
      as [Hf | Hf].
    + rewrite !elem_of_cons, elem_of_nil in Hf.
      destruct Hf as [-> | [-> | [-> | [-> | [-> | []]]]]];
        rewrite ?lookup_set_opt_ne by done;
        by rewrite lookup_set_opt_eq by by rewrite ?lookup_set_opt_ne.
    + repeat (apply not_elem_of_cons in Hf as [? Hf]).
      rewrite !lookup_set_opt_ne by done.
      by rewrite lookup_insert_ne, lookup_singleton_ne.
Qed.

(** X7: the profile read answers 404 "User not found" for a user with no
    document.  For a user with one it answers 200 with the uid and email of
    the token, not of the document, with displayName, photoURL, plan,
    createdAt and lastLogin as the document has them, and with no other
    field; in both cases it leaves the world as it was. *)
Theorem get_user_profile_answers (user : Identity) (body : doc) (w : World) :
  (store w !! uid user = None ->
   get_user_profile user body w =
     ({| status := 404; json := error_json "User not found" |}, w)) /\
  (forall d : doc, store w !! uid user = Some d ->
   exists fields : doc,
     get_user_profile user body w = ({| status := 200; json := VObj fields |}, w) /\
     fields !! "uid" = Some (VStr (uid user)) /\
     fields !! "email" = Some (VStr (email user)) /\
     forall f : string, f <> "uid" -> f <> "email" ->
       fields !! f =
         if decide (f ∈ ["displayName"; "photoURL"; "plan"; "createdAt"; "lastLogin"])
         then d !! f else None).
Proof.
  split.
  - intros Hnone. unfold get_user_profile, bind, ret, db_get. by rewrite Hnone.
  - intros d Hd. by apply get_user_profile_present.
Qed.

(** X8: a profile update is read back.  After [PUT /api/user/profile] for a
    user with a document, [GET /api/user/profile] returns the displayName
    and photoURL of the request where it supplied them and the stored ones
    where it did not, lastLogin at the time of the update, and the plan and
    createdAt the document had. *)
Theorem profile_update_is_read_back (user : Identity) (body d : doc) (w : World) :
  store w !! uid user = Some d ->
  let w1 := snd (put_user_profile toISOString user body w) in
  exists fields : doc,
    fst (get_user_profile user ∅ w1) = {| status := 200; json := VObj fields |} /\
    fields !! "lastLogin" = Some (VStr (toISOString (clock w (ticks w)))) /\
    fields !! "displayName" =
      match body !! "displayName" with Some v => Some v | None => d !! "displayName" end /\
    fields !! "photoURL" =
      match body !! "photoURL" with Some v => Some v | None => d !! "photoURL" end /\
    fields !! "plan" = d !! "plan" /\
    fields !! "createdAt" = d !! "createdAt".
Proof.
  intros Hd w1. subst w1. rewrite (put_user_profile_present _ _ d) by done. cbn [snd].
  edestruct (get_user_profile_present user ∅) as (fields & -> & _ & _ & Hfields).
  { cbn [store]. apply lookup_insert_eq. }
  exists fields. split; [done|].
  rewrite !Hfields by done.
  repeat split;
    (rewrite decide_True by (by repeat constructor));
    rewrite lookup_union, profile_updates_lookup; repeat case_decide; try done.
  - by destruct (d !! "lastLogin").
  - by destruct (body !! "displayName"), (d !! "displayName").
  - by destruct (body !! "photoURL"), (d !! "photoURL").
  - by destruct (d !! "plan").
  - by destruct (d !! "createdAt").
Qed.

(** *** [GET /api/user/stats] after a write *)

Lemma get_user_stats_fields (user : Identity) (body userData plan : doc) (w : World) :
  store w !! uid user = Some userData ->
  userData !! "plan" = Some (VObj plan) ->
  to_string_throws_opt (plan !! "subscriptionEnd") = false ->
  exists fields : doc,
    fst (get_user_stats Date_of user body w) = {| status := 200; json := VObj fields |} /\
    fields !! "planType" = plan !! "type" /\
    fields !! "daysRemaining" =
      Some (json_of_num (daysRemaining Date_of plan (clock w (ticks w)))) /\
    fields !! "isExpired" =
      Some (VBool (isExpired Date_of plan (clock w (S (ticks w))))).
Proof.
  intros Hdoc Hplan Hprints.
  unfold get_user_stats, bind, ret, db_get, Date_now. rewrite Hdoc, Hplan.
  cbn [from_option fields_of]. rewrite Hprints, andb_false_r.
  assert (truthy_opt (plan !! "subscriptionEnd") = false ->
          forall now, daysRemaining Date_of plan now = None /\
                      isExpired Date_of plan now = false) as Hfalsy.
  { unfold truthy_opt, daysRemaining, isExpired.
    destruct (plan !! "subscriptionEnd") as [v|]; [|done]. by intros ->. }
  destruct (truthy_opt (plan !! "subscriptionEnd")) eqn:Htruthy;
    cbn [fst snd ticks clock store]; eexists; (split; [reflexivity|]).
  - split; [|split].
    + by rewrite lookup_set_opt_eq by by rewrite ?lookup_set_opt_ne.
    + by rewrite !lookup_set_opt_ne.
    + by rewrite !lookup_set_opt_ne.
  - destruct (Hfalsy eq_refl (clock w (ticks w))) as [-> _].
    destruct (Hfalsy eq_refl (clock w (S (ticks w)))) as [_ ->].
    split; [|split].
    + by rewrite lookup_set_opt_eq by by rewrite ?lookup_set_opt_ne.
    + by rewrite !lookup_set_opt_ne.
    + by rewrite !lookup_set_opt_ne.
Qed.

(** X9: a trial has seven days.  After the create of a trial user, the stats
    report the plan type trial, the days between the stored end (seven days
    after the second clock reading of the create) and the clock reading of
    the stats, rounded up, and not expired until the clock passes the end;
    read while the clock has not moved, they report 7 days remaining. *)
Theorem trial_stats_after_create (user : Identity) (body : doc) (w : World) :
  store w !! uid user = None ->
  create_planType body = VStr "trial" ->
  let expiry := clock w (S (ticks w)) + 7 * MS_PER_DAY in
  toISOString expiry <> EmptyString ->
  Date_of (VStr (toISOString expiry)) = Some expiry ->
  let w1 := snd (post_user_create toISOString user body w) in
  exists fields : doc,
    fst (get_user_stats Date_of user ∅ w1) = {| status := 200; json := VObj fields |} /\
    fields !! "planType" = Some (VStr "trial") /\
    fields !! "daysRemaining" =
      Some (VNum (Z.max 0 (ceil_div (expiry - clock w (S (S (ticks w)))) MS_PER_DAY))) /\
    fields !! "isExpired" = Some (VBool (clock w (S (S (S (ticks w)))) >? expiry)) /\
    (clock w (S (S (ticks w))) = clock w (S (ticks w)) ->
     fields !! "daysRemaining" = Some (VNum 7)).
Proof.
  intros Hnone Htrial expiry Hnonempty Hparse w1. subst w1.
  rewrite post_user_create_fresh by (done || by rewrite Htrial). rewrite Htrial.
  remember (snd (create_commit toISOString user (VStr "trial") None w)) as w1 eqn:Hw1.
  unfold create_commit, bind, ret, Date_now, db_set in Hw1. cbn in Hw1. subst w1.
  edestruct (get_user_stats_fields user ∅) as (fields & -> & Htype & Hdays & Hexpired).
  { cbn [store]. apply lookup_insert_eq. }
  { reflexivity. }
  { reflexivity. }
  exists fields. split; [done|]. cbn [ticks clock] in Hdays, Hexpired.
  assert (forall now,
            daysRemaining Date_of
              {[ "type" := VStr "trial"; "status" := VStr "active";
                 "subscriptionStart" := VStr (toISOString (clock w (ticks w)));
                 "subscriptionEnd" := VStr (toISOString expiry);
                 "lastUpdated" := VStr (toISOString (clock w (ticks w))) ]} now
            = Some (Num (Z.max 0 (ceil_div (expiry - now) MS_PER_DAY))) /\
            isExpired Date_of
              {[ "type" := VStr "trial"; "status" := VStr "active";
                 "subscriptionStart" := VStr (toISOString (clock w (ticks w)));
                 "subscriptionEnd" := VStr (toISOString expiry);
                 "lastUpdated" := VStr (toISOString (clock w (ticks w))) ]} now
            = (now >? expiry)) as Hplan.
  { intros now. unfold daysRemaining, isExpired.
    change (_ !! "subscriptionEnd") with (Some (VStr (toISOString expiry))).
    cbn [truthy]. rewrite (proj2 (String.eqb_neq _ _) Hnonempty). cbn [negb].
    by rewrite Hparse. }
  split; [exact Htype|].
  fold expiry in Hdays, Hexpired.
  rewrite (proj1 (Hplan _)) in Hdays. rewrite (proj2 (Hplan _)) in Hexpired.
  split; [exact Hdays|]. split; [exact Hexpired|].
  intros Hstill. rewrite Hdays, Hstill. do 2 f_equal.
  rewrite (ceil_div_unique _ MS_PER_DAY 7); [done | done |].
  subst expiry. unfold MS_PER_DAY. lia.
Qed.

(** X10: a plan change does not validate subscriptionEnd.  A truthy value
    that [new Date] converts without throwing and reads as no date is stored
    as it is, and the stats of the user then answer 200 with daysRemaining
    null and isExpired false. *)
Theorem unparseable_end_is_stored_and_ignored (user : Identity) (body old : doc)
    (s : string) (v : value) (w : World) :
  store w !! uid user = Some old ->
  body !! "planType" = Some (VStr s) ->
  s ∈ validPlans ->
  body !! "subscriptionEnd" = Some v ->
  truthy v = true ->
  to_string_throws v = false ->
  Date_of v = None ->
  let w1 := snd (put_user_plan toISOString user body w) in
  exists (stored plan fields : doc),
    store w1 !! uid user = Some stored /\
    stored !! "plan" = Some (VObj plan) /\
    plan !! "subscriptionEnd" = Some v /\
    fst (get_user_stats Date_of user ∅ w1) = {| status := 200; json := VObj fields |} /\
    fields !! "planType" = Some (VStr s) /\
    fields !! "daysRemaining" = Some VNull /\
    fields !! "isExpired" = Some (VBool false).
Proof.
  intros Hold Htype Hvalid Hend Hv Hprints Hdate w1. subst w1.
  assert (includes validPlans (body !! "planType") = true) as Hinc.
  { apply includes_validPlans. by exists s. }
  unfold put_user_plan, bind, ret, Date_now. rewrite Hinc, Htype, Hend.
  cbn [negb set_opt to_string_throws_opt to_string_throws].
  rewrite (or_null_truthy _ Hv).
  erewrite db_update_present by exact Hold. cbn [snd].
  edestruct (get_user_stats_fields user ∅) as (fields & -> & Hplantype & Hdays & Hexpired).
  { cbn [store]. apply lookup_insert_eq. }
  { by apply merge_overwrites. }
  { change (_ !! "subscriptionEnd") with (Some v). exact Hprints. }
  eexists _, _, fields. split; [apply lookup_insert_eq|].
  split; [by apply merge_overwrites|]. split; [reflexivity|]. split; [done|].
  split; [exact Hplantype|].
  unfold daysRemaining in Hdays. unfold isExpired in Hexpired.
  change (_ !! "subscriptionEnd") with (Some v) in Hdays, Hexpired.
  cbv beta iota in Hdays, Hexpired.
  rewrite Hv, Hdate in Hdays, Hexpired. by split.
Qed.

(** *** The tokens [jwt.verify] is asked about *)

Lemma until_space_no_space (s : string) : no_space (until_space s) = true.
Proof.
  induction s as [|c rest IH]; [done|]. cbn.
  destruct (Ascii.eqb c " ") eqn:Hc; [done|]. cbn. by rewrite Hc.
Qed.

Lemma bearer_token_no_space_in (h tok : string) :
  bearer_token (Some h) = Some tok -> no_space tok = true.
Proof.
  destruct (bearer_token_spec h) as [-> | [_ ->]].
  - unfold second_field. destruct (after_space h) as [rest|]; [|done].
    intros [= <-]. apply until_space_no_space.
  - by intros [= <-].
Qed.

(** X11: the middleware asks [jwt.verify] only about tokens that are not
    empty and hold no space.  Two verifiers that agree on such tokens give
    the same outcome on every request. *)
Theorem verifier_sees_clean_tokens
    (other_verify : string -> string -> Z -> option Identity)
    (headers : gmap string string) (w : World) :
  (forall (tok secret : string) (now : Z),
     tok <> EmptyString -> no_space tok = true ->
     other_verify tok secret now = jwt_verify tok secret now) ->
  authenticateToken JWT_SECRET other_verify headers w
    = authenticateToken JWT_SECRET jwt_verify headers w.
Proof.
  intros Hagree. unfold authenticateToken, bind, ret, Date_now.
  destruct (headers !! "authorization") as [h|]; [|done].
  destruct (bearer_token (Some h)) as [tok|] eqn:Htok; [|done].
  destruct (String.eqb tok "") eqn:Hempty; [done|].
  rewrite Hagree; [done | by apply String.eqb_neq |].
  by apply (bearer_token_no_space_in h).
Qed.

(** *** The statuses of each route *)

Lemma put_user_plan_status (user : Identity) (body : doc) (w : World) :
  status (fst (put_user_plan toISOString user body w)) ∈ [200; 400; 500].
Proof.
  unfold put_user_plan, bind, ret, Date_now, db_update.
  destruct (to_string_throws_opt (body !! "planType")); [by repeat constructor|].
  destruct (includes validPlans (body !! "planType")); cbn [negb fst status];
    [|by repeat constructor].
  cbn [store]. destruct (store w !! uid user); by repeat constructor.
Qed.

Lemma put_user_profile_status (user : Identity) (body : doc) (w : World) :
  status (fst (put_user_profile toISOString user body w)) ∈ [200; 500].
Proof.
  destruct (store w !! uid user) as [old|] eqn:Hw.
  - erewrite put_user_profile_present by done. by repeat constructor.
  - rewrite put_user_profile_missing by done. by repeat constructor.
Qed.

Lemma get_user_profile_status (user : Identity) (body : doc) (w : World) :
  status (fst (get_user_profile user body w)) ∈ [200; 404].
Proof.
  unfold get_user_profile, bind, ret, db_get.
  destruct (store w !! uid user); by repeat constructor.
Qed.

Lemma get_user_stats_status (user : Identity) (body : doc) (w : World) :
  status (fst (get_user_stats Date_of user body w)) ∈ [200; 404; 500].
Proof.
  unfold get_user_stats, bind, ret, db_get, Date_now.
  destruct (store w !! uid user) as [userData|]; [|by repeat constructor].
  destruct (from_option fields_of None (userData !! "plan")) as [plan|];
    [|by repeat constructor].
  destruct (truthy_opt (plan !! "subscriptionEnd")); [|by repeat constructor].
  destruct (to_string_throws_opt (plan !! "subscriptionEnd")); by repeat constructor.
Qed.

Lemma protected_status (handler : Identity -> doc -> M response)
    (headers : gmap string string) (body : doc) (w : World) (allowed : list Z) :
  401 ∈ allowed -> 403 ∈ allowed ->
  (forall user w', status (fst (handler user body w')) ∈ allowed) ->
  status (fst (protected_ handler headers body w)) ∈ allowed.
Proof.
  intros H401 H403 Hhandler.
  destruct (protected_cases handler headers body w)
    as [(res & -> & Hst & _) | [(tok & _ & _ & _ & res & -> & Hst)
                               | (tok & decoded & _ & _ & _ & ->)]];
    cbn [fst]; by rewrite ?Hst.
Qed.

(** X13: the statuses of every route, the collection being available.  A
    request whose body is no JSON is answered 500 by the error middleware,
    whatever its route and token.  Of the others, a protected route answers
    401 or 403, or what its handler answers: the create 201, 409 or 500 and
    never 400, the plan change 200, 400 or 500 and never 404, the profile
    update 200 or 500, the profile read 200 or 404, the stats 200, 404 or
    500; the token route and every unknown route answer 404. *)
Theorem every_status_is_in_the_table (req : request) (w : World) :
  status (fst (serve toISOString Date_of JWT_SECRET jwt_verify jwt_sign req w))
    ∈ route_statuses req.
Proof.
  rewrite serve_routes.
  destruct req as [h|h|h|h|h b|h b|h b|h|u e| |]; cbn [route_statuses];
    try (by repeat constructor);
    (apply protected_status; [by repeat constructor | by repeat constructor |]);
    intros user w'.
  - by repeat constructor.
  - by repeat constructor.
  - by repeat constructor.
  - pose proof (get_user_profile_status user ∅ w') as Hst. revert Hst.
    rewrite !elem_of_cons, !elem_of_nil. tauto.
  - destruct (post_user_create_status user b w') as [-> | [-> | ->]];
      by repeat constructor.
  - pose proof (put_user_plan_status user b w') as Hst. revert Hst.
    rewrite !elem_of_cons, !elem_of_nil. tauto.
  - pose proof (put_user_profile_status user b w') as Hst. revert Hst.
    rewrite !elem_of_cons, !elem_of_nil. tauto.
  - pose proof (get_user_stats_status user ∅ w') as Hst. revert Hst.
    rewrite !elem_of_cons, !elem_of_nil. tauto.
Qed.

(** *** Days remaining against expiry *)

Lemma ceil_div_mono (a a' b : Z) :
  0 < b -> a <= a' -> ceil_div a b <= ceil_div a' b.
Proof.
  intros Hb Ha. pose proof (ceil_div_bounds a b Hb).
  pose proof (ceil_div_bounds a' b Hb). nia.
Qed.

Lemma ceil_div_nonpos (a b : Z) : 0 < b -> ceil_div a b <= 0 <-> a <= 0.
Proof.
  intros Hb. pose proof (ceil_div_bounds a b Hb). split; nia.
Qed.

(** X14: days remaining and expiry agree.  For a plan that ends at the
    instant [e], daysRemaining is never negative and never grows as time
    advances, it is 0 exactly from [e] on, an expired plan has 0 days
    remaining, and at the instant [e] itself the plan has 0 days remaining
    and is not yet expired. *)
Theorem days_remaining_and_expiry (plan : doc) (v : value) (e now now' : Z) :
  plan !! "subscriptionEnd" = Some v -> truthy v = true -> Date_of v = Some e ->
  exists days days' : Z,
    daysRemaining Date_of plan now = Some (Num days) /\
    daysRemaining Date_of plan now' = Some (Num days') /\
    0 <= days /\
    (now <= now' -> days' <= days) /\
    (days = 0 <-> e <= now) /\
    (isExpired Date_of plan now = true -> days = 0) /\
    (now = e -> days = 0 /\ isExpired Date_of plan now = false).
Proof.
  intros Hend Hv Hdate. unfold daysRemaining, isExpired. rewrite Hend, Hv, Hdate.
  eexists _, _. split; [reflexivity|]. split; [reflexivity|].
  assert (0 < MS_PER_DAY) as Hday by done.
  pose proof (ceil_div_nonpos (e - now) MS_PER_DAY Hday) as Hnonpos.
  rewrite Z.gtb_ltb. split; [lia|]. split; [|split; [|split]].
  - intros Hlater.
    pose proof (ceil_div_mono (e - now') (e - now) MS_PER_DAY Hday ltac:(lia)). lia.
  - lia.
  - rewrite Z.ltb_lt. lia.
  - intros ->. split; [lia|]. apply Z.ltb_ge. lia.
Qed.

(** *** The ways two creates interleave *)

(** X12: of the six ways the two steps of two create requests for one new
    user can interleave, the planType of each converting to a string, only
    the two in which one request finishes before the other starts leave one
    winner (201 for the first to run, 409 for the other); in each of the
    four others both requests are answered 201. *)
Theorem create_race_outcomes (user : Identity) (body1 body2 : doc) (w : World) :
  to_string_throws (create_planType body1) = false ->
  to_string_throws (create_planType body2) = false ->
  store w !! uid user = None ->
  let outcome schedule :=
    task_status <$>
      fst (run_schedule toISOString schedule
             [Arrived user body1; Arrived user body2] w) in
  outcome [0; 0; 1; 1]%nat = [Some 201; Some 409] /\
  outcome [1; 1; 0; 0]%nat = [Some 409; Some 201] /\
  forall schedule, schedule ∈ overlapping_schedules ->
    outcome schedule = [Some 201; Some 201].
Proof.
  intros Hprints1 Hprints2 Hnone outcome. subst outcome. cbv beta.
  split; [|split].
  - unfold run_schedule, create_step, create_commit, bind, ret, db_get, db_set, Date_now.
    cbn. rewrite Hprints1, Hprints2, Hnone.
    destruct (strict_eq_str (create_planType body1) "trial"); cbn;
      by rewrite lookup_insert_eq.
  - unfold run_schedule, create_step, create_commit, bind, ret, db_get, db_set, Date_now.
    cbn. rewrite Hprints1, Hprints2, Hnone.
    destruct (strict_eq_str (create_planType body2) "trial"); cbn;
      by rewrite lookup_insert_eq.
  - intros schedule Hin. unfold overlapping_schedules in Hin.
    rewrite !elem_of_cons, elem_of_nil in Hin.
    destruct Hin as [-> | [-> | [-> | [-> | []]]]];
      unfold run_schedule, create_step, create_commit, bind, ret, db_get, db_set, Date_now;
      cbn; rewrite Hprints1, Hprints2, Hnone;
      by destruct (strict_eq_str (create_planType body1) "trial"),
        (strict_eq_str (create_planType body2) "trial").
Qed.

(** *** A plan change read back *)

(** X15: a plan change is read back.  After [PUT /api/user/plan] with a valid
    type for a user with a document, [GET /api/user/profile] returns the new
    plan (the requested type, status active, the end and billing id of the
    request or null) and the createdAt, displayName and photoURL the document
    had. *)
Theorem plan_change_is_read_back (user : Identity) (body old : doc) (s : string)
    (w : World) :
  store w !! uid user = Some old ->
  body !! "planType" = Some (VStr s) ->
  s ∈ validPlans ->
  let w1 := snd (put_user_plan toISOString user body w) in
  exists fields plan : doc,
    fst (get_user_profile user ∅ w1) = {| status := 200; json := VObj fields |} /\
    fields !! "plan" = Some (VObj plan) /\
    plan !! "type" = Some (VStr s) /\
    plan !! "status" = Some (VStr "active") /\
    plan !! "subscriptionEnd" = Some (or_null (body !! "subscriptionEnd")) /\
    plan !! "stripeCustomerId" = Some (or_null (body !! "stripeCustomerId")) /\
    fields !! "createdAt" = old !! "createdAt" /\
    fields !! "displayName" = old !! "displayName" /\
    fields !! "photoURL" = old !! "photoURL".
Proof.
  intros Hold Htype Hvalid w1. subst w1.
  assert (includes validPlans (body !! "planType") = true) as Hinc.
  { apply includes_validPlans. by exists s. }
  unfold put_user_plan, bind, ret, Date_now. rewrite Hinc, Htype.
  cbn [negb set_opt to_string_throws_opt to_string_throws].
  erewrite db_update_present by exact Hold. cbn [snd].
  edestruct (get_user_profile_present user ∅) as (fields & -> & _ & _ & Hfields).
  { cbn [store]. apply lookup_insert_eq. }
  pose proof (Hfields "plan" ltac:(done) ltac:(done)) as Hplan.
  pose proof (Hfields "createdAt" ltac:(done) ltac:(done)) as Hcreated.
  pose proof (Hfields "displayName" ltac:(done) ltac:(done)) as Hname.
  pose proof (Hfields "photoURL" ltac:(done) ltac:(done)) as Hphoto.
  rewrite decide_True in Hplan by (by repeat constructor).
  rewrite decide_True in Hcreated by (by repeat constructor).
  rewrite decide_True in Hname by (by repeat constructor).
  rewrite decide_True in Hphoto by (by repeat constructor).
  eexists fields, _. split; [done|].
  rewrite Hplan, Hcreated, Hname, Hphoto.
  split; [by apply merge_overwrites|].
  repeat split; first [reflexivity | by apply merge_keeps].
Qed.

End Properties.

(** ** Concrete runs *)

(** C1: two create requests for the user u1, with planType trial and pro,
    whose reads both run before either write.  Both are answered 201, none
    409, and the document left in the collection is the second writer's: the
    first one's trial plan has been overwritten. *)
Theorem concurrent_creates_both_succeed :
  let run := run_schedule iso8601 [0; 1; 0; 1]%nat
               [Arrived alice {[ "planType" := VStr "trial" ]};
                Arrived alice {[ "planType" := VStr "pro" ]}] ticking_world in
  task_status <$> fst run = [Some 201; Some 201] /\
  exists (stored plan : doc),
    store (snd run) !! "u1" = Some stored /\
    stored !! "plan" = Some (VObj plan) /\
    plan !! "type" = Some (VStr "pro") /\
    plan !! "subscriptionEnd" = Some VNull.
Proof.
  cbv zeta. split; [by vm_compute|].
  eexists _, _. split; [by vm_compute|]. split; [by vm_compute|].
  split; by vm_compute.
Qed.

Example iso8601_epoch : iso8601 0 = "1970-01-01T00:00:00.000Z".
Proof. by vm_compute. Qed.

Example iso8601_T0 : iso8601 T0 = "2024-01-01T00:00:00.000Z".
Proof. by vm_compute. Qed.

Example parse_iso8601_T0 : parse_iso8601 "2024-01-01T00:00:00.000Z" = Some T0.
Proof. by vm_compute. Qed.

Example parse_iso8601_garbage : parse_iso8601 "next tuesday" = None.
Proof. by vm_compute. Qed.

Example split_space_bearer : split_space "Bearer abc.def" = ["Bearer"; "abc.def"].
Proof. reflexivity. Qed.

Example split_space_two_spaces : split_space "Bearer  abc" = ["Bearer"; ""; "abc"].
Proof. reflexivity. Qed.

(** The scenario of the plan change to bogus: rejected, world untouched. *)
Example put_user_plan_bogus :
  put_user_plan iso8601 alice {[ "planType" := VStr "bogus" ]} alice_world =
    ({| status := 400; json := error_json "Invalid plan type" |}, alice_world).
Proof.
  apply put_user_plan_invalid_type; [reflexivity|].
  intros s Hs. rewrite lookup_singleton_eq. intros [= <-].
  unfold validPlans in Hs. rewrite !elem_of_cons, elem_of_nil in Hs.
  by destruct Hs as [|[|[|[|]]]].
Qed.

(** C6: a plan change whose requested type is the JSON object
    [{"toString": null}], which is none of free, trial, pro and plus.  The
    log line of line 186 converts it to a string and throws before line 189
    validates it: the answer is the 500 "Failed to update plan" of the
    [catch], not 400 "Invalid plan type".  The world is left as it was. *)
Theorem change_plan_unprintable_type_answers_500 :
  let body : doc := {[ "planType" := VObj {[ "toString" := VNull ]} ]} in
  includes validPlans (body !! "planType") = false /\
  put_user_plan iso8601 alice body alice_world =
    ({| status := 500; json := error_json "Failed to update plan" |}, alice_world).
Proof. cbv zeta. split; [reflexivity|]. by apply put_user_plan_throws. Qed.

(** The scenario of the plan change to pro with the billing id cus_123 and no
    end date, for a user whose stored plan had an end date and the billing id
    cus_old. *)
Lemma change_plan_replaces_plan_witness :
  exists (stored plan : doc),
    store (snd (put_user_plan iso8601 alice
                  {[ "planType" := VStr "pro"; "stripeCustomerId" := VStr "cus_123" ]}
                  alice_world)) !! "u1" = Some stored /\
    stored !! "plan" = Some (VObj plan) /\
    plan = {[ "type" := VStr "pro";
              "status" := VStr "active";
              "subscriptionStart" := VStr "2024-01-01T00:00:00.000Z";
              "subscriptionEnd" := VNull;
              "stripeCustomerId" := VStr "cus_123";
              "lastUpdated" := VStr "2024-01-01T00:00:00.000Z" ]}.
Proof.
  destruct (change_plan_replaces_plan iso8601 alice
              {[ "planType" := VStr "pro"; "stripeCustomerId" := VStr "cus_123" ]}
              alice_doc "pro" alice_world)
    as (w' & stored & Hrun & Hstored & Hplan & _).
  - reflexivity.
  - reflexivity.
  - unfold validPlans. rewrite !elem_of_cons. tauto.
  - rewrite Hrun. eexists stored, _. split; [exact Hstored|].
    split; [exact Hplan|]. by vm_compute.
Defined.

(** The update of a profile for alice when the request supplies displayName
    alone. *)
Example put_user_profile_merges :
  exists (w' : World) (stored : doc),
    put_user_profile iso8601 alice {[ "displayName" := VStr "Al" ]} alice_world =
      ({| status := 200; json := message_json "Profile updated successfully" |}, w') /\
    store w' = <["u1" := stored]> (store alice_world) /\
    stored !! "lastLogin" = Some (VStr (iso8601 T0)) /\
    stored !! "displayName" = Some (VStr "Al") /\
    stored !! "photoURL" = alice_doc !! "photoURL" /\
    stored !! "plan" = alice_doc !! "plan".
Proof.
  pose proof (update_not_found_or_merged iso8601 alice
                {[ "displayName" := VStr "Al" ]} alice_world) as [_ Hpresent].
  destruct (Hpresent alice_doc) as [(w' & stored & Hrun & Hstore & Hlast & Hset & Hkeep) _];
    [reflexivity|].
  exists w', stored. split; [exact Hrun|]. split; [exact Hstore|].
  split; [exact Hlast|]. split; [|split].
  - apply Hset; [by left | reflexivity].
  - apply Hkeep; [done|]. intros [_ [v Hv]]. discriminate Hv.
  - apply Hkeep; [done|]. by intros [[|] _].
Qed.

(** C3: the updates of a user with no document.  [update] fails with
    [NotFound], and neither handler tells it from any other failure: the
    profile update answers 500 "Failed to update profile" and the plan
    change 500 "Failed to update plan", where the two reading handlers
    answer the same user 404 "User not found".  No document is written. *)
Theorem update_of_missing_user_answers_500 :
  store still_world !! uid alice = None /\
  db_update (uid alice) {[ "lastLogin" := VStr (iso8601 T0) ]} still_world
    = (inl NotFound, still_world) /\
  fst (put_user_profile iso8601 alice {[ "displayName" := VStr "Al" ]} still_world)
    = {| status := 500; json := error_json "Failed to update profile" |} /\
  fst (put_user_plan iso8601 alice {[ "planType" := VStr "pro" ]} still_world)
    = {| status := 500; json := error_json "Failed to update plan" |} /\
  store (snd (put_user_profile iso8601 alice {[ "displayName" := VStr "Al" ]} still_world))
    = store still_world /\
  store (snd (put_user_plan iso8601 alice {[ "planType" := VStr "pro" ]} still_world))
    = store still_world /\
  fst (get_user_profile alice ∅ still_world)
    = {| status := 404; json := error_json "User not found" |} /\
  fst (get_user_stats date_value alice ∅ still_world)
    = {| status := 404; json := error_json "User not found" |}.
Proof.
  split; [reflexivity|]. split; [reflexivity|].
  rewrite put_user_profile_missing by reflexivity.
  rewrite (put_user_plan_missing iso8601 alice _ "pro");
    [| reflexivity | reflexivity | unfold validPlans; by repeat constructor].
  repeat split.
Qed.

(** The scenario of the trial user: created at [T0] under a clock that
    stands still, the plan ends seven days later, and at [T0] it has seven
    days remaining and is not expired. *)
Lemma create_trial_sets_expiry_witness :
  exists (w' : World) (stored plan : doc),
    snd (post_user_create iso8601 alice {[ "planType" := VStr "trial" ]} still_world) = w' /\
    store w' !! "u1" = Some stored /\
    stored !! "plan" = Some (VObj plan) /\
    plan !! "subscriptionStart" = Some (VStr "2024-01-01T00:00:00.000Z") /\
    plan !! "subscriptionEnd" = Some (VStr "2024-01-08T00:00:00.000Z") /\
    daysRemaining date_value plan T0 = Some (Num 7) /\
    isExpired date_value plan T0 = false.
Proof.
  destruct (create_trial_sets_expiry iso8601 alice
              {[ "planType" := VStr "trial" ]} still_world)
    as [Htrial _]; [reflexivity|].
  destruct Htrial as (w' & stored & Hrun & Hstored & _ & Hplan); [by right|].
  specialize (Hplan eq_refl).
  rewrite Hrun. eexists w', stored, _. split; [reflexivity|].
  split; [exact Hstored|]. split; [exact Hplan|].
  repeat split; by vm_compute.
Defined.

(** A create with a planType outside the four plans. *)
Lemma create_accepts_any_plan_type_witness :
  exists (stored plan : doc),
    status (fst (post_user_create iso8601 alice
                   {[ "planType" := VStr "enterprise" ]} still_world)) = 201 /\
    store (snd (post_user_create iso8601 alice
                  {[ "planType" := VStr "enterprise" ]} still_world)) !! "u1" = Some stored /\
    stored !! "plan" = Some (VObj plan) /\
    plan !! "type" = Some (VStr "enterprise") /\
    plan !! "subscriptionEnd" = Some VNull.
Proof.
  destruct (create_accepts_any_plan_type iso8601 alice
              {[ "planType" := VStr "enterprise" ]} still_world) as [_ Hfresh].
  destruct (Hfresh "enterprise") as (stored & plan & H201 & Hstored & Hplan & Htype & Hend);
    [reflexivity | reflexivity |].
  exists stored, plan. repeat split; try done. by apply Hend.
Defined.

(** The plan of [alice_doc] ends thirty minutes after [T0]: one day
    remaining at [T0]. *)
Lemma daysRemaining_ceiling_witness :
  daysRemaining date_value
    {[ "type" := VStr "pro"; "subscriptionEnd" := VStr "2024-01-01T00:30:00.000Z" ]} T0
  = Some (Num 1).
Proof.
  pose proof (daysRemaining_ceiling date_value
                {[ "type" := VStr "pro";
                   "subscriptionEnd" := VStr "2024-01-01T00:30:00.000Z" ]} T0)
    as (_ & _ & Hhalf_hour).
  apply (Hhalf_hour (VStr "2024-01-01T00:30:00.000Z")); by vm_compute.
Defined.

(** A plan that ends one second before [T0] is expired at [T0]. *)
Lemma isExpired_strict_witness :
  isExpired date_value
    {[ "type" := VStr "pro"; "subscriptionEnd" := VStr "2023-12-31T23:59:59.000Z" ]} T0
  = true.
Proof.
  pose proof (isExpired_strict date_value
                {[ "type" := VStr "pro";
                   "subscriptionEnd" := VStr "2023-12-31T23:59:59.000Z" ]} T0)
    as (_ & Hend).
  destruct (Hend (VStr "2023-12-31T23:59:59.000Z") (T0 - 1000)) as (_ & _ & Hsecond);
    [by vm_compute | by vm_compute | by vm_compute |].
  by apply Hsecond.
Defined.

(** A request that carries [Bearer tok-alice] passes as alice. *)
Lemma auth_verifies_second_field_witness :
  fst (authenticateToken "s3cret" sample_verify
         {[ "authorization" := "Bearer tok-alice" ]} alice_world) = Next alice.
Proof.
  pose proof (auth_verifies_second_field "s3cret" sample_verify
                {[ "authorization" := "Bearer tok-alice" ]} alice_world)
    as (_ & _ & _ & Hfield & _).
  rewrite (Hfield "Bearer tok-alice" "tok-alice");
    [reflexivity | reflexivity | reflexivity | discriminate].
Defined.

(** C2, as stated, fails: a header whose scheme is not Bearer is not answered
    401.  With a token that does not verify the answer is 403, and with one
    that verifies the request passes. *)
Lemma auth_ignores_scheme :
  has_bearer_scheme "Basic abc" = false /\
  fst (authenticateToken "s3cret" sample_verify
         {[ "authorization" := "Basic abc" ]} alice_world)
    = Rejected {| status := 403; json := error_json "Invalid or expired token" |} /\
  has_bearer_scheme "Basic tok-alice" = false /\
  fst (authenticateToken "s3cret" sample_verify
         {[ "authorization" := "Basic tok-alice" ]} alice_world)
    = Next alice.
Proof. repeat split; by vm_compute. Qed.

(** C8, as stated, fails: under a clock that advances by a millisecond
    between the two readings of the create handler, a trial created at [T0]
    starts at [T0] and ends a millisecond later than seven days after
    [T0]. *)
Lemma create_trial_end_drifts :
  exists (stored plan : doc),
    status (fst (post_user_create iso8601 alice ∅ ticking_world)) = 201 /\
    store (snd (post_user_create iso8601 alice ∅ ticking_world)) !! "u1" = Some stored /\
    stored !! "plan" = Some (VObj plan) /\
    plan !! "type" = Some (VStr "trial") /\
    plan !! "subscriptionStart" = Some (VStr (iso8601 T0)) /\
    plan !! "lastUpdated" = Some (VStr (iso8601 T0)) /\
    plan !! "subscriptionEnd" = Some (VStr "2024-01-08T00:00:00.001Z") /\
    plan !! "subscriptionEnd" <> Some (VStr (iso8601 (T0 + 7 * MS_PER_DAY))).
Proof.
  eexists _, _. split; [by vm_compute|]. split; [by vm_compute|].
  split; [by vm_compute|]. repeat split; by vm_compute.
Qed.

(** The stats of alice at [T0]: her plan ends thirty minutes later. *)
Example get_user_stats_alice :
  exists fields : doc,
    fst (get_user_stats date_value alice ∅ alice_world)
      = {| status := 200; json := VObj fields |} /\
    fields !! "planType" = Some (VStr "pro") /\
    fields !! "daysRemaining" = Some (VNum 1) /\
    fields !! "isExpired" = Some (VBool false).
Proof.
  eexists. split; [by vm_compute|]. repeat split; by vm_compute.
Qed.

(** The stats of a user with no document. *)
Example get_user_stats_unknown :
  fst (get_user_stats date_value alice ∅ still_world)
    = {| status := 404; json := error_json "User not found" |}.
Proof. by vm_compute. Qed.

(** A token issued to alice for seven days verifies one second later. *)
Lemma verify_issue_roundtrip_witness :
  TokenCodec.verify sample_mac "s3cret"
    (TokenCodec.issue sample_mac "s3cret" alice T0 SEVEN_DAYS) (T0 + 1000)
  = Some alice.
Proof.
  apply verify_issue_roundtrip; by vm_compute.
Defined.

(** ** Concrete runs of the router *)

Lemma iso8601_nonempty (t : Z) : iso8601 t <> EmptyString.
Proof.
  pose proof (iso8601_truthy t) as Htruthy. unfold truthy in Htruthy.
  by apply negb_true_iff, String.eqb_neq in Htruthy.
Qed.

(** A request whose body is no JSON is answered by the error middleware,
    before any route and whatever its token; the world is left as it was. *)
Example serve_malformed_body :
  serve iso8601 date_value "s3cret" sample_verify sample_sign Malformed_body alice_world
    = ({| status := 500; json := error_json "Internal server error" |}, alice_world).
Proof. reflexivity. Qed.

(** A create by a new user whose planType cannot be converted to a string,
    through the router: 500, and no document is written. *)
Example serve_create_unprintable_plan_type :
  let res := serve iso8601 date_value "s3cret" sample_verify sample_sign
               (POST_user_create alice_headers
                  {[ "planType" := VObj {[ "toString" := VNull ]} ]}) still_world in
  fst res = {| status := 500; json := error_json "Failed to create user" |} /\
  store (snd res) = store still_world.
Proof. cbv zeta. split; by vm_compute. Qed.

(** Reading the profile of alice leaves the collection as it was. *)
Lemma read_only_requests_keep_store_witness :
  store (snd (serve iso8601 date_value "s3cret" sample_verify sample_sign
                (GET_user_profile alice_headers) alice_world))
    = store alice_world.
Proof.
  apply read_only_requests_keep_store; intros h b; discriminate.
Defined.

(** A profile update by alice leaves the document of the second user. *)
Lemma requests_touch_own_document_only_witness :
  store (snd (serve iso8601 date_value "s3cret" sample_verify sample_sign
                (PUT_user_profile alice_headers {[ "displayName" := VStr "Al" ]})
                two_user_world)) !! "u2"
    = Some bob_doc.
Proof.
  rewrite requests_touch_own_document_only; [reflexivity|].
  intros h tok decoded [= <-] Htok Hverify.
  change (Some "tok-alice" = Some tok) in Htok. injection Htok as <-.
  change (Some alice = Some decoded) in Hverify. by injection Hverify as <-.
Defined.

(** After a plan change and a stats read, the document of alice is still
    there with the createdAt it had. *)
Lemma documents_persist_witness :
  exists d' : doc,
    store (snd (serve_all iso8601 date_value "s3cret" sample_verify sample_sign
                  [PUT_user_plan alice_headers {[ "planType" := VStr "plus" ]};
                   GET_user_stats alice_headers] alice_world)) !! "u1" = Some d' /\
    d' !! "createdAt" = Some (VStr "2023-11-01T00:00:00.000Z").
Proof.
  destruct (documents_persist iso8601 date_value "s3cret" sample_verify sample_sign
              [PUT_user_plan alice_headers {[ "planType" := VStr "plus" ]};
               GET_user_stats alice_headers] alice_world "u1" alice_doc eq_refl)
    as (d' & Hd' & Hsame).
  exists d'. split; [exact Hd'|]. by rewrite Hsame.
Defined.

(** A create for alice, who has a document, after a health check: with no
    planType, and with one that cannot be converted to a string. *)
Lemma create_conflicts_forever_witness :
  let w' := snd (serve_all iso8601 date_value "s3cret" sample_verify sample_sign
                   [GET_health alice_headers] alice_world) in
  post_user_create iso8601 alice ∅ w'
    = ({| status := 409; json := error_json "User already exists" |}, w') /\
  post_user_create iso8601 alice {[ "planType" := VObj {[ "toString" := VNull ]} ]} w'
    = ({| status := 500; json := error_json "Failed to create user" |}, w').
Proof.
  assert (is_Some (store alice_world !! uid alice)) as Halice by (by exists alice_doc).
  split.
  - exact (create_conflicts_forever iso8601 date_value "s3cret" sample_verify sample_sign
             [GET_health alice_headers] alice ∅ alice_world Halice).
  - exact (create_conflicts_forever iso8601 date_value "s3cret" sample_verify sample_sign
             [GET_health alice_headers] alice
             {[ "planType" := VObj {[ "toString" := VNull ]} ]} alice_world Halice).
Defined.

(** From the empty collection, a create and a plan change leave well-formed
    documents; the plan change stores an end that [new Date] cannot convert,
    and the stats of the user are then answered 500. *)
Lemma stored_documents_stay_well_formed_witness :
  let w' := snd (serve_all iso8601 date_value "s3cret" sample_verify sample_sign
                   [POST_user_create alice_headers ∅;
                    PUT_user_plan alice_headers
                      {[ "planType" := VStr "pro";
                         "subscriptionEnd" := VObj {[ "toString" := VNull ]} ]}]
                   still_world) in
  store_ok (store w') /\
  status (fst (get_user_stats date_value alice ∅ w')) = 500.
Proof.
  intros w'.
  destruct (stored_documents_stay_well_formed iso8601 date_value "s3cret"
              sample_verify sample_sign iso8601_nonempty
              [POST_user_create alice_headers ∅;
               PUT_user_plan alice_headers
                 {[ "planType" := VStr "pro";
                    "subscriptionEnd" := VObj {[ "toString" := VNull ]} ]}]
              still_world) as [Hok Hstats].
  { intros k d Hk. change (store still_world) with (∅ : gmap string doc) in Hk.
    by rewrite lookup_empty in Hk. }
  split; [exact Hok|]. by vm_compute.
Defined.

(** Alice renames herself and reads her profile. *)
Lemma profile_update_is_read_back_witness :
  exists fields : doc,
    fst (get_user_profile alice ∅
           (snd (put_user_profile iso8601 alice {[ "displayName" := VStr "Al" ]}
                   alice_world)))
      = {| status := 200; json := VObj fields |} /\
    fields !! "displayName" = Some (VStr "Al") /\
    fields !! "photoURL" = Some VNull /\
    fields !! "lastLogin" = Some (VStr "2024-01-01T00:00:00.000Z").
Proof.
  destruct (profile_update_is_read_back iso8601 alice
              {[ "displayName" := VStr "Al" ]} alice_doc alice_world eq_refl)
    as (fields & Hrun & Hlast & Hname & Hphoto & _).
  exists fields. split; [exact Hrun|].
  split; [by rewrite Hname|]. split; [by rewrite Hphoto|].
  rewrite Hlast. by vm_compute.
Defined.

(** The scenario of the trial user, through the handlers: seven days
    remaining and not expired at the time of the create. *)
Lemma trial_stats_after_create_witness :
  exists fields : doc,
    fst (get_user_stats date_value alice ∅
           (snd (post_user_create iso8601 alice ∅ still_world)))
      = {| status := 200; json := VObj fields |} /\
    fields !! "planType" = Some (VStr "trial") /\
    fields !! "daysRemaining" = Some (VNum 7) /\
    fields !! "isExpired" = Some (VBool false).
Proof.
  destruct (trial_stats_after_create iso8601 date_value alice ∅ still_world)
    as (fields & Hrun & Htype & _ & Hexpired & Hseven).
  - reflexivity.
  - reflexivity.
  - apply iso8601_nonempty.
  - by vm_compute.
  - exists fields. split; [exact Hrun|]. split; [exact Htype|].
    split; [by apply Hseven|]. rewrite Hexpired. by vm_compute.
Defined.

(** A plan change whose end date is no date. *)
Lemma unparseable_end_is_stored_and_ignored_witness :
  exists fields : doc,
    fst (get_user_stats date_value alice ∅
           (snd (put_user_plan iso8601 alice
                   {[ "planType" := VStr "pro";
                      "subscriptionEnd" := VStr "next tuesday" ]} alice_world)))
      = {| status := 200; json := VObj fields |} /\
    fields !! "daysRemaining" = Some VNull /\
    fields !! "isExpired" = Some (VBool false).
Proof.
  destruct (unparseable_end_is_stored_and_ignored iso8601 date_value alice
              {[ "planType" := VStr "pro"; "subscriptionEnd" := VStr "next tuesday" ]}
              alice_doc "pro" (VStr "next tuesday") alice_world)
    as (stored & plan & fields & _ & _ & _ & Hrun & _ & Hdays & Hexpired).
  - reflexivity.
  - reflexivity.
  - unfold validPlans. rewrite !elem_of_cons. tauto.
  - reflexivity.
  - reflexivity.
  - reflexivity.
  - by vm_compute.
  - by exists fields.
Defined.

(** A verifier that would accept any token with a space in it is never asked
    about one. *)
Lemma verifier_sees_clean_tokens_witness :
  authenticateToken "s3cret"
    (fun tok secret now =>
       if no_space tok then sample_verify tok secret now else Some alice)
    {[ "authorization" := "Bearer tok alice" ]} alice_world
  = authenticateToken "s3cret" sample_verify
      {[ "authorization" := "Bearer tok alice" ]} alice_world.
Proof.
  apply verifier_sees_clean_tokens.
  intros tok secret now _ Hclean. by rewrite Hclean.
Defined.

(** Two creates for alice, the second one read first and written last. *)
Lemma create_race_outcomes_witness :
  task_status <$>
    fst (run_schedule iso8601 [1; 0; 0; 1]%nat
           [Arrived alice {[ "planType" := VStr "trial" ]};
            Arrived alice {[ "planType" := VStr "pro" ]}] ticking_world)
  = [Some 201; Some 201].
Proof.
  destruct (create_race_outcomes iso8601 alice
              {[ "planType" := VStr "trial" ]} {[ "planType" := VStr "pro" ]}
              ticking_world) as (_ & _ & Hoverlap);
    [reflexivity | reflexivity | reflexivity |].
  apply Hoverlap. unfold overlapping_schedules. rewrite !elem_of_cons. tauto.
Defined.

(** A plan that ends at [T0], read at [T0]: no day remaining, not expired. *)
Lemma days_remaining_and_expiry_witness :
  daysRemaining date_value
    {[ "subscriptionEnd" := VStr "2024-01-01T00:00:00.000Z" ]} T0 = Some (Num 0) /\
  isExpired date_value
    {[ "subscriptionEnd" := VStr "2024-01-01T00:00:00.000Z" ]} T0 = false.
Proof.
  destruct (days_remaining_and_expiry date_value
              {[ "subscriptionEnd" := VStr "2024-01-01T00:00:00.000Z" ]}
              (VStr "2024-01-01T00:00:00.000Z") T0 T0 (T0 + 1))
    as (days & days' & Hdays & _ & _ & _ & _ & _ & Hat).
  - reflexivity.
  - reflexivity.
  - by vm_compute.
  - destruct (Hat eq_refl) as [Hzero Hexpired].
    split; [by rewrite Hdays, Hzero | exact Hexpired].
Defined.

(** Alice moves to the plus plan and reads her profile. *)
Lemma plan_change_is_read_back_witness :
  exists fields plan : doc,
    fst (get_user_profile alice ∅
           (snd (put_user_plan iso8601 alice {[ "planType" := VStr "plus" ]}
                   alice_world)))
      = {| status := 200; json := VObj fields |} /\
    fields !! "plan" = Some (VObj plan) /\
    plan !! "type" = Some (VStr "plus") /\
    plan !! "stripeCustomerId" = Some VNull /\
    fields !! "createdAt" = Some (VStr "2023-11-01T00:00:00.000Z").
Proof.
  destruct (plan_change_is_read_back iso8601 alice {[ "planType" := VStr "plus" ]}
              alice_doc "plus" alice_world)
    as (fields & plan & Hrun & Hplan & Htype & _ & _ & Hbilling & Hcreated & _).
  - reflexivity.
  - reflexivity.
  - unfold validPlans. rewrite !elem_of_cons. tauto.
  - exists fields, plan. split; [exact Hrun|]. split; [exact Hplan|].
    split; [exact Htype|]. split; [exact Hbilling|]. by rewrite Hcreated.
Defined.
